(** * go-aws-forecast-example: the resource lifecycle helpers of [main.go]

    A shallow embedding of [skipIfAlreadyExists], [waitForActive],
    [waitForDeleted], the [Create*] / [Delete*] methods of [Forecast] and
    [main], followed by the properties of the polling state machine and of
    the idempotent create.

    Conventions of the embedding.
    - A Go pointer [*T] is an [option T]; dereferencing [None] panics.
    - A Go [error] value is an [option error]; [None] is the nil error.
    - The remote service is a state [W] threaded through every call.
    - A [select] statement over [ticker.C] and [ctx.Done()] takes one of its
      two cases each time it is reached.  The cases taken, in order, form the
      [pending] schedule of the environment; an exhausted schedule leaves the
      goroutine blocked in the [select].  The context is therefore not a
      parameter of the embedded methods: it is present through the schedule. *)

From Stdlib Require Import String List ZArith Bool Lia DecimalString.
Import ListNotations.
Open Scope string_scope.

(** ** The Go library functions the program calls *)

Module strings.
(** [strings.HasPrefix(s, prefix)] *)
Definition HasPrefix (s pre : string) : bool := String.prefix pre s.
End strings.

Module fmt.
(** The verb [%d] applied to an [int64]. *)
Definition d (z : Z) : string := NilZero.string_of_int (Z.to_int z).
End fmt.

(** ** Errors *)

(** The dynamic types an [error] of this program can have: the two modeled
    exceptions of the forecast service, the [*errors.errorString] built by
    [errors.New] and by [fmt.Errorf] without [%w], any other leaf error, and
    an error that wraps another one (it has an [Unwrap] method, as the
    SDK's operation errors have). *)
Inductive error : Type :=
| ResourceAlreadyExistsException (message : string)
| ResourceNotFoundException (message : string)
| errorString (s : string)
| otherError (code message : string)
| wrapError (msg : string) (err : error).

Module errors.
Definition New (s : string) : error := errorString s.

(** [errors.As(err, &target)] with [target] of type
    [*types.ResourceAlreadyExistsException]: some error of the [Unwrap]
    chain has that type. *)
Fixpoint As_ResourceAlreadyExistsException (err : error) : bool :=
  match err with
  | ResourceAlreadyExistsException _ => true
  | wrapError _ inner => As_ResourceAlreadyExistsException inner
  | _ => false
  end.

(** [errors.As(err, &target)] with [target] of type
    [*types.ResourceNotFoundException]. *)
Fixpoint As_ResourceNotFoundException (err : error) : bool :=
  match err with
  | ResourceNotFoundException _ => true
  | wrapError _ inner => As_ResourceNotFoundException inner
  | _ => false
  end.

(** The [Error] method. *)
Definition Error (err : error) : string :=
  match err with
  | ResourceAlreadyExistsException m => "ResourceAlreadyExistsException: " ++ m
  | ResourceNotFoundException m => "ResourceNotFoundException: " ++ m
  | errorString s => s
  | otherError c m => c ++ ": " ++ m
  | wrapError m _ => m
  end.
End errors.

(** ** Environment and control *)

(** The case of the [select] statement that is taken. *)
Inductive select_case : Type :=
| TickerC   (* case <-ticker.C *)
| CtxDone.  (* case <-ctx.Done() *)

Section Lifecycle.

(** State of the remote forecast service. *)
Context {W : Type}.

Record env : Type := mkEnv {
  remote : W;                     (* the remote service *)
  pending : list select_case;     (* select cases still to be taken *)
  logged : list string            (* lines written through package log *)
}.

(** How a call ends. *)
Inductive result (A : Type) : Type :=
| Done (a : A) (e : env)     (* the function returns [a] *)
| Panic (e : env)            (* nil pointer dereference *)
| Blocked (e : env)          (* still waiting in a select *)
| Exited (e : env).          (* log.Fatal: the process exits with status 1 *)
Arguments Done {A} a e.
Arguments Panic {A} e.
Arguments Blocked {A} e.
Arguments Exited {A} e.

Definition M (A : Type) : Type := env -> result A.

Definition ret {A} (a : A) : M A := fun e => Done a e.

Definition bind {A B} (c : M A) (k : A -> M B) : M B :=
  fun e =>
    match c e with
    | Done a e' => k a e'
    | Panic e' => Panic e'
    | Blocked e' => Blocked e'
    | Exited e' => Exited e'
    end.

(** A call to the remote service. *)
Definition call {A} (op : W -> A * W) : M A :=
  fun e =>
    let '(a, w) := op (remote e) in
    Done a (mkEnv w (pending e) (logged e)).

(** [log.Printf] / [log.Println] with the line already formatted. *)
Definition log_Print (line : string) : M unit :=
  fun e => Done tt (mkEnv (remote e) (pending e) (logged e ++ [line])).

(** [log.Fatal(err)] *)
Definition log_Fatal {A} (err : error) : M A :=
  fun e => Exited (mkEnv (remote e) (pending e) (logged e ++ [errors.Error err])).

(** [*p] *)
Definition deref {A} (p : option A) : M A :=
  fun e => match p with Some a => Done a e | None => Panic e end.

End Lifecycle.

Arguments env W : clear implicits.
Arguments result W A : clear implicits.
Arguments M W A : clear implicits.
Arguments Done {W A} a e.
Arguments Panic {W A} e.
Arguments Blocked {W A} e.
Arguments Exited {W A} e.

Declare Scope go_scope.
Delimit Scope go_scope with go.
Notation "x <- c ;; k" := (bind c (fun x => k))
  (at level 100, c at next level, right associativity) : go_scope.
Notation "' p <- c ;; k" := (bind c (fun x => let 'p := x in k))
  (at level 100, p pattern, c at next level, right associativity) : go_scope.
Notation "c ;;; k" := (bind c (fun _ => k))
  (at level 100, right associativity) : go_scope.
Open Scope go_scope.

(** ** The SDK types the program touches *)

Module types.
Record S3Config : Type := {
  Path : option string;
  RoleArn : option string
}.

Inductive AttributeType : Type :=
| AttributeTypeTimestamp | AttributeTypeFloat | AttributeTypeString.

Record SchemaAttribute : Type := {
  AttributeName : option string;
  AttributeType_ : AttributeType
}.

Record SupplementaryFeature : Type := {
  Name : option string;
  Value : option string
}.
End types.

Module forecast.
Record CreateDatasetInput : Type := {
  DatasetName : option string;
  DatasetType : string;
  DataFrequency : option string;
  Domain : string;
  Schema : list types.SchemaAttribute
}.

Record CreateDatasetImportJobInput : Type := {
  DatasetImportJobName : option string;
  DatasetArn : option string;
  TimeZone : option string;
  DataSource : option types.S3Config
}.

Record CreateDatasetGroupInput : Type := {
  DatasetGroupName : option string;
  DatasetArns : list string;
  GroupDomain : string
}.

Record CreatePredictorInput : Type := {
  PredictorName : option string;
  ForecastHorizon : option Z;
  ForecastFrequency : option string;
  PerformAutoML : option bool;
  DatasetGroupArn : option string;
  SupplementaryFeatures : list types.SupplementaryFeature
}.

Record CreateForecastInput : Type := {
  ForecastName : option string;
  PredictorArn : option string
}.

Record CreateForecastExportJobInput : Type := {
  ForecastExportJobName : option string;
  ForecastArn : option string;
  Destination : option types.S3Config
}.

(** What the program reads of a [Describe*Output]. *)
Record DescribeOutput : Type := {
  Status : option string;
  EstimatedTimeRemainingInMinutes : option Z
}.

(** The operations of [*forecast.Client] the program calls, on a remote
    state [W].  An operation of the SDK returns a non-nil output or a
    non-nil error; a [Create*] output is reduced to the ARN field the
    program reads, a [Delete*] output to nothing.  The argument of a
    [Describe*] or [Delete*] operation is the ARN field of its input. *)
Record Client (W : Type) : Type := {
  CreateDataset : CreateDatasetInput -> W -> (option string + error) * W;
  CreateDatasetImportJob : CreateDatasetImportJobInput -> W -> (option string + error) * W;
  CreateDatasetGroup : CreateDatasetGroupInput -> W -> (option string + error) * W;
  CreatePredictor : CreatePredictorInput -> W -> (option string + error) * W;
  CreateForecast : CreateForecastInput -> W -> (option string + error) * W;
  CreateForecastExportJob : CreateForecastExportJobInput -> W -> (option string + error) * W;
  DescribeDatasetImportJob : option string -> W -> (DescribeOutput + error) * W;
  DescribePredictor : option string -> W -> (DescribeOutput + error) * W;
  DescribeForecast : option string -> W -> (DescribeOutput + error) * W;
  DescribeForecastExportJob : option string -> W -> (DescribeOutput + error) * W;
  DeleteForecastExportJob : option string -> W -> (unit + error) * W;
  DeleteForecast : option string -> W -> (unit + error) * W;
  DeletePredictor : option string -> W -> (unit + error) * W;
  DeleteDatasetGroup : option string -> W -> (unit + error) * W;
  DeleteDatasetImportJob : option string -> W -> (unit + error) * W;
  DeleteDataset : option string -> W -> (unit + error) * W
}.
Arguments CreateDataset {W}.
Arguments CreateDatasetImportJob {W}.
Arguments CreateDatasetGroup {W}.
Arguments CreatePredictor {W}.
Arguments CreateForecast {W}.
Arguments CreateForecastExportJob {W}.
Arguments DescribeDatasetImportJob {W}.
Arguments DescribePredictor {W}.
Arguments DescribeForecast {W}.
Arguments DescribeForecastExportJob {W}.
Arguments DeleteForecastExportJob {W}.
Arguments DeleteForecast {W}.
Arguments DeletePredictor {W}.
Arguments DeleteDatasetGroup {W}.
Arguments DeleteDatasetImportJob {W}.
Arguments DeleteDataset {W}.
End forecast.

Module forecastquery.
(** [*forecastquery.Client]: stored in [Forecast], never called. *)
Inductive Client : Type := NewFromConfig.
End forecastquery.

Module sts.
Record GetCallerIdentityOutput : Type := {
  Account : option string;
  Arn : option string;
  UserId : option string
}.
End sts.

(** ** The program *)

(** Result of a create closure and of the deletion waiter's poll closure:
    a string pointer and an error. *)
Definition handle_result : Type := option string * option error.

(** Result of the active waiter's poll closure: a string pointer, an int64
    pointer and an error. *)
Definition status_result : Type := option string * option Z * option error.

Record Forecast (W : Type) : Type := {
  region : string;
  svc : forecast.Client W;
  query : forecastquery.Client;
  caller : option sts.GetCallerIdentityOutput
}.
Arguments region {W}.
Arguments svc {W}.
Arguments query {W}.
Arguments caller {W}.

Section Methods.
Context {W : Type}.
Variable f : Forecast W.

Definition skipIfAlreadyExists (resource name : string)
    (h : W -> handle_result * W) : M W handle_result :=
  '(arn, err) <- call h ;;
  match err with
  | Some err' =>
      if errors.As_ResourceAlreadyExistsException err' then
        log_Print ("skip to create " ++ resource ++ " already exists") ;;;
        c <- deref (caller f) ;;
        account <- deref (sts.Account c) ;;
        ret (Some ("arn:aws:forecast:" ++ region f ++ ":" ++ account ++ ":"
                     ++ resource ++ "/" ++ name), None)
      else ret (None, Some err')
  | None => ret (arn, None)
  end.

(** The [for { select { ... } }] loop of [waitForActive], by recursion on
    the select cases that are taken. *)
Fixpoint waitForActive_loop (name : string) (h : W -> status_result * W)
    (sc : list select_case) (w : W) (lg : list string)
    : result W (option error) :=
  match sc with
  | [] => Blocked (mkEnv w [] lg)
  | CtxDone :: sc' => Done None (mkEnv w sc' lg)
  | TickerC :: sc' =>
      let '(status, remainingMin, err, w') := h w in
      match err with
      | Some err' => Done (Some err') (mkEnv w' sc' lg)
      | None =>
          match status with
          | None => Panic (mkEnv w' sc' lg)
          | Some st =>
              if st =? "ACTIVE" then Done None (mkEnv w' sc' lg)
              else if negb (strings.HasPrefix st "CREATE") then
                Done (Some (errors.New (name ++ " is not creating but " ++ st)))
                     (mkEnv w' sc' lg)
              else if st =? "CREATE_FAILED" then
                Done (Some (errors.New "creating is failed")) (mkEnv w' sc' lg)
              else
                waitForActive_loop name h sc' w'
                  match remainingMin with
                  | Some m =>
                      lg ++ [name ++ "'s status is " ++ st ++ ". remaining "
                               ++ fmt.d m ++ " mins"]
                  | None => lg
                  end
          end
      end
  end.

Definition waitForActive (name : string) (h : W -> status_result * W)
    : M W (option error) :=
  fun e => waitForActive_loop name h (pending e) (remote e) (logged e).

(** The loop of [waitForDeleted]. *)
Fixpoint waitForDeleted_loop (name : string) (h : W -> handle_result * W)
    (sc : list select_case) (w : W) (lg : list string)
    : result W (option error) :=
  match sc with
  | [] => Blocked (mkEnv w [] lg)
  | CtxDone :: sc' => Done None (mkEnv w sc' lg)
  | TickerC :: sc' =>
      let '(status, err, w') := h w in
      match err with
      | Some err' =>
          if errors.As_ResourceNotFoundException err' then
            Done None (mkEnv w' sc' lg)
          else Done (Some err') (mkEnv w' sc' lg)
      | None =>
          match status with
          | None => Panic (mkEnv w' sc' lg)
          | Some st =>
              if negb (strings.HasPrefix st "DELETE") then
                Done (Some (errors.New (name ++ " is not deleting but " ++ st)))
                     (mkEnv w' sc' lg)
              else if st =? "DELTE_FAILED" then
                Done (Some (errors.New "deleting is failed")) (mkEnv w' sc' lg)
              else
                waitForDeleted_loop name h sc' w'
                  (lg ++ [name ++ "'s status is " ++ st])
          end
      end
  end.

Definition waitForDeleted (name : string) (h : W -> handle_result * W)
    : M W (option error) :=
  fun e => waitForDeleted_loop name h (pending e) (remote e) (logged e).

End Methods.

Section Stages.
Context {W : Type}.
Variable f : Forecast W.

(** The body shared by the create closures: call the operation, return
    [nil, err] on an error and the ARN of the output otherwise. *)
Definition create_closure (op : W -> (option string + error) * W)
    : W -> handle_result * W :=
  fun w =>
    match op w with
    | (inr err, w') => ((None, Some err), w')
    | (inl arn, w') => ((arn, None), w')
    end.

(** The poll closures handed to [waitForActive]: [desc.Status] with the
    estimated remaining minutes picked by [remaining]. *)
Definition describe_closure
    (op : W -> (forecast.DescribeOutput + error) * W)
    (remaining : forecast.DescribeOutput -> option Z)
    : W -> status_result * W :=
  fun w =>
    match op w with
    | (inr err, w') => ((None, None, Some err), w')
    | (inl desc, w') => ((forecast.Status desc, remaining desc, None), w')
    end.

(** The poll closures handed to [waitForDeleted]. *)
Definition describe_status_closure
    (op : W -> (forecast.DescribeOutput + error) * W)
    : W -> handle_result * W :=
  fun w =>
    match op w with
    | (inr err, w') => ((None, Some err), w')
    | (inl desc, w') => ((forecast.Status desc, None), w')
    end.

Definition CreateDataset (name : string) : M W handle_result :=
  skipIfAlreadyExists f "dataset" name
    (create_closure (forecast.CreateDataset (svc f)
       {| forecast.DatasetName := Some name;
          forecast.DatasetType := "TARGET_TIME_SERIES";
          forecast.DataFrequency := Some "H";
          forecast.Domain := "CUSTOM";
          forecast.Schema :=
            [ {| types.AttributeName := Some "timestamp";
                 types.AttributeType_ := types.AttributeTypeTimestamp |};
              {| types.AttributeName := Some "target_value";
                 types.AttributeType_ := types.AttributeTypeFloat |};
              {| types.AttributeName := Some "item_id";
                 types.AttributeType_ := types.AttributeTypeString |} ] |})).

Definition CreateDatasetImportJob (name datasetName datasetArn : string)
    (src : option types.S3Config) : M W handle_result :=
  '(arn, err) <- skipIfAlreadyExists f ("dataset-import-job/" ++ datasetName) name
    (create_closure (forecast.CreateDatasetImportJob (svc f)
       {| forecast.DatasetImportJobName := Some name;
          forecast.DatasetArn := Some datasetArn;
          forecast.TimeZone := Some "America/Los_Angeles";
          forecast.DataSource := src |})) ;;
  match err with
  | Some err' => ret (None, Some err')
  | None =>
      err <- waitForActive "dataset-import-job"
        (describe_closure (forecast.DescribeDatasetImportJob (svc f) arn)
           forecast.EstimatedTimeRemainingInMinutes) ;;
      match err with
      | Some err' => ret (None, Some err')
      | None => ret (arn, None)
      end
  end.

Definition CreateDatasetGroup (name : string) (datasetArns : list string)
    : M W handle_result :=
  skipIfAlreadyExists f "dataset-group" name
    (create_closure (forecast.CreateDatasetGroup (svc f)
       {| forecast.DatasetGroupName := Some name;
          forecast.DatasetArns := datasetArns;
          forecast.GroupDomain := "CUSTOM" |})).

Definition CreatePredictor (name datasetGroupArn : string) : M W handle_result :=
  '(arn, err) <- skipIfAlreadyExists f "predictor" name
    (create_closure (forecast.CreatePredictor (svc f)
       {| forecast.PredictorName := Some name;
          forecast.ForecastHorizon := Some 72%Z;
          forecast.ForecastFrequency := Some "H";
          forecast.PerformAutoML := Some true;
          forecast.DatasetGroupArn := Some datasetGroupArn;
          forecast.SupplementaryFeatures :=
            [ {| types.Name := Some "holiday"; types.Value := Some "US" |} ] |})) ;;
  match err with
  | Some err' => ret (None, Some err')
  | None =>
      err1 <- waitForActive "predictor"
        (describe_closure (forecast.DescribePredictor (svc f) arn)
           forecast.EstimatedTimeRemainingInMinutes) ;;
      match err1 with
      | Some err' => ret (None, Some err')
      | None => ret (arn, err)   (* return arn, err: the outer err *)
      end
  end.

Definition CreateForecast (name predictorArn : string) : M W handle_result :=
  '(arn, err) <- skipIfAlreadyExists f "forecast" name
    (create_closure (forecast.CreateForecast (svc f)
       {| forecast.ForecastName := Some name;
          forecast.PredictorArn := Some predictorArn |})) ;;
  match err with
  | Some err' => ret (None, Some err')
  | None =>
      err <- waitForActive "forecast"
        (describe_closure (forecast.DescribeForecast (svc f) arn)
           forecast.EstimatedTimeRemainingInMinutes) ;;
      match err with
      | Some err' => ret (None, Some err')
      | None => ret (arn, None)
      end
  end.

(** Here the [if] statement is [if f.waitForActive(...); err != nil]: the
    call is the init statement, its result is dropped, and the condition
    reads the [err] of the create above. *)
Definition CreateForecastExportJob (name forecastName forecastArn : string)
    (dest : option types.S3Config) : M W handle_result :=
  '(arn, err) <- skipIfAlreadyExists f ("forecast-export-job/" ++ forecastName) name
    (create_closure (forecast.CreateForecastExportJob (svc f)
       {| forecast.ForecastExportJobName := Some name;
          forecast.ForecastArn := Some forecastArn;
          forecast.Destination := dest |})) ;;
  match err with
  | Some err' => ret (None, Some err')
  | None =>
      waitForActive "forecast-export-job"
        (describe_closure (forecast.DescribeForecastExportJob (svc f) arn)
           (fun _ => Some 0%Z)) ;;;
      match err with
      | Some err' => ret (None, Some err')
      | None => ret (arn, None)
      end
  end.

(** The shape shared by the delete methods that wait. *)
Definition delete_then_wait (del : W -> (unit + error) * W) (name : string)
    (describe : W -> (forecast.DescribeOutput + error) * W)
    : M W (option error) :=
  r <- call del ;;
  match r with
  | inr err => ret (Some err)
  | inl _ => waitForDeleted name (describe_status_closure describe)
  end.

(** The shape of the delete methods that do not wait. *)
Definition delete_only (del : W -> (unit + error) * W) : M W (option error) :=
  r <- call del ;;
  match r with
  | inr err => ret (Some err)
  | inl _ => ret None
  end.

Definition DeleteForecastExportJob (forecastExportJobArn : string) :=
  delete_then_wait (forecast.DeleteForecastExportJob (svc f) (Some forecastExportJobArn))
    "forecast-export-job"
    (forecast.DescribeForecastExportJob (svc f) (Some forecastExportJobArn)).

Definition DeleteForecast (forecastArn : string) :=
  delete_then_wait (forecast.DeleteForecast (svc f) (Some forecastArn))
    "forecast" (forecast.DescribeForecast (svc f) (Some forecastArn)).

Definition DeletePredictor (predictorArn : string) :=
  delete_then_wait (forecast.DeletePredictor (svc f) (Some predictorArn))
    "predictor" (forecast.DescribePredictor (svc f) (Some predictorArn)).

Definition DeleteDatasetGroup (datasetGroupArn : string) :=
  delete_only (forecast.DeleteDatasetGroup (svc f) (Some datasetGroupArn)).

Definition DeleteDatasetImportJob (datasetImportJobArn : string) :=
  delete_then_wait (forecast.DeleteDatasetImportJob (svc f) (Some datasetImportJobArn))
    "dataset-import-job"
    (forecast.DescribeDatasetImportJob (svc f) (Some datasetImportJobArn)).

Definition DeleteDataset (datasetArn : string) :=
  delete_only (forecast.DeleteDataset (svc f) (Some datasetArn)).

End Stages.

(** ** [main] *)

Section Main.
Context {W : Type}.

(** [if err != nil { log.Fatal(err) }] after a call returning a value
    and an error. *)
Definition orFatal {A} (c : M W (A * option error)) : M W A :=
  '(a, err) <- c ;;
  match err with
  | Some err' => log_Fatal err'
  | None => ret a
  end.

(** The same after a call returning only an error. *)
Definition orFatal_ (c : M W (option error)) : M W unit :=
  err <- c ;;
  match err with
  | Some err' => log_Fatal err'
  | None => ret tt
  end.

Definition executionRole : string :=
  "arn:aws:iam::524580158183:role/service-role/AmazonForecast-ExecutionRole-1613821137643".

(** [main], given what the three constructors of the SDK produce:
    [loadDefaultConfig] is the result of [config.LoadDefaultConfig] (the
    region of the configuration or an error), [newFromConfig] is
    [forecast.NewFromConfig] and [getCallerIdentity] is the call to STS. *)
Definition main (loadDefaultConfig : string + error)
    (newFromConfig : string -> forecast.Client W)
    (getCallerIdentity : W -> (sts.GetCallerIdentityOutput + error) * W)
    : M W unit :=
  match loadDefaultConfig with
  | inr err => log_Fatal err
  | inl cfgRegion =>
      r <- call getCallerIdentity ;;
      match r with
      | inr err => log_Fatal err
      | inl out =>
          let f := {| region := cfgRegion;
                      svc := newFromConfig cfgRegion;
                      query := forecastquery.NewFromConfig;
                      caller := Some out |} in
          log_Print "create dataset" ;;;
          datasetArn <- orFatal (CreateDataset f "electricityusagedata") ;;
          log_Print "create importDatasetJob" ;;;
          datasetArn' <- deref datasetArn ;;
          datasetImportJobArn <- orFatal
            (CreateDatasetImportJob f "import_electricityusagedata"
               "electricityusagedata" datasetArn'
               (Some {| types.Path := Some "s3://hogefuga/electricityusagedata.csv";
                        types.RoleArn := Some executionRole |})) ;;
          log_Print "create datasetGroup" ;;;
          datasetArn' <- deref datasetArn ;;
          datasetGroupArn <- orFatal
            (CreateDatasetGroup f "electricityusagedatagroup" [datasetArn']) ;;
          log_Print "create predictor" ;;;
          datasetGroupArn' <- deref datasetGroupArn ;;
          predictorArn <- orFatal
            (CreatePredictor f "electricityusagedata_predictor" datasetGroupArn') ;;
          log_Print "create forecast" ;;;
          predictorArn' <- deref predictorArn ;;
          forecastArn <- orFatal
            (CreateForecast f "electricityusagedata_forecast" predictorArn') ;;
          log_Print "create forecastExportJob" ;;;
          forecastArn' <- deref forecastArn ;;
          forecastExportJobArn <- orFatal
            (CreateForecastExportJob f "export_electricityusagedata_forecast"
               "electricityusagedata_forecast" forecastArn'
               (Some {| types.Path := Some "s3://hogefuga/electricityusagedata_forecast/";
                        types.RoleArn := Some executionRole |})) ;;
          log_Print "clean up" ;;;
          forecastExportJobArn' <- deref forecastExportJobArn ;;
          orFatal_ (DeleteForecastExportJob f forecastExportJobArn') ;;;
          forecastArn' <- deref forecastArn ;;
          orFatal_ (DeleteForecast f forecastArn') ;;;
          predictorArn' <- deref predictorArn ;;
          orFatal_ (DeletePredictor f predictorArn') ;;;
          datasetGroupArn' <- deref datasetGroupArn ;;
          orFatal_ (DeleteDatasetGroup f datasetGroupArn') ;;;
          datasetImportJobArn' <- deref datasetImportJobArn ;;
          orFatal_ (DeleteDatasetImportJob f datasetImportJobArn') ;;;
          datasetArn' <- deref datasetArn ;;
          orFatal_ (DeleteDataset f datasetArn')
      end
  end.

End Main.

(** ** Poll sequences *)

Section PollSequence.
Context {W A : Type}.
Variable h : W -> A * W.

(** The remote state after [k] calls of the poll function. *)
Fixpoint remote_after (k : nat) (w : W) : W :=
  match k with
  | O => w
  | S k' => remote_after k' (snd (h w))
  end.

(** What the poll numbered [k] (from 0) reports. *)
Definition poll_at (k : nat) (w : W) : A := fst (h (remote_after k w)).
End PollSequence.

(** The poll reports the status "ACTIVE". *)
Definition reports_active (r : status_result) : bool :=
  match r with
  | (Some st, _, None) => st =? "ACTIVE"
  | _ => false
  end.

(** The poll reports an in-progress status: it starts with "CREATE" and is
    not the terminal failure "CREATE_FAILED". *)
Definition reports_creating (r : status_result) : bool :=
  match r with
  | (Some st, _, None) =>
      strings.HasPrefix st "CREATE" && negb (st =? "CREATE_FAILED")
  | _ => false
  end.

(** The poll sequence eventually reports "ACTIVE", every earlier poll
    reporting an in-progress status. *)
Definition eventually_active {W} (h : W -> status_result * W) (w : W) : Prop :=
  exists k, reports_active (poll_at h k w) = true /\
            forall j, j < k -> reports_creating (poll_at h j w) = true.

(** The ways the active-state waiter comes to return the nil error on the
    schedule [sc]: after [k] ticks whose polls all report an in-progress
    status, either the select takes the [ctx.Done()] case, or it takes one
    more tick and that poll reports "ACTIVE". *)
Definition active_or_cancelled {W} (h : W -> status_result * W) (w : W)
    (sc : list select_case) : Prop :=
  exists k c rest,
    sc = (repeat TickerC k ++ c :: rest)%list /\
    (forall j, j < k -> reports_creating (poll_at h j w) = true) /\
    (c = CtxDone \/ (c = TickerC /\ reports_active (poll_at h k w) = true)).

(** The contract of a poll function on its status: it returns a non-nil
    status whenever it returns the nil error. *)
Definition status_or_error3 {W} (h : W -> status_result * W) : Prop :=
  forall w remainingMin w', h w <> ((None, remainingMin, None), w').

Definition status_or_error2 {W} (h : W -> handle_result * W) : Prop :=
  forall w w', h w <> ((None, None), w').

(** A remote whose answers are scripted: a poll consumes the head of the
    script, and answers [dflt] once the script is used up. *)
Definition scripted {A} (dflt : A) : list A -> A * list A :=
  fun w =>
    match w with
    | [] => (dflt, [])
    | r :: w' => (r, w')
    end.

(** A poll function that always gives the same answer. *)
Definition always {A} (r : A) : unit -> A * unit := fun w => (r, w).

(** A closure that gives the same answer on any remote and leaves it as
    it is. *)
Definition always_on {W A} (r : A) : W -> A * W := fun w => (r, w).

(** ** Deletion polls *)

(** The deletion poll reports a status that keeps the waiter in its loop:
    it starts with "DELETE". *)
Definition reports_deleting (r : handle_result) : bool :=
  match r with
  | (Some st, None) => strings.HasPrefix st "DELETE"
  | _ => false
  end.

(** The deletion poll fails with an error that is a
    ResourceNotFoundException. *)
Definition reports_gone (r : handle_result) : bool :=
  match r with
  | (_, Some err) => errors.As_ResourceNotFoundException err
  | _ => false
  end.

(** The ways the deletion waiter comes to return the nil error on the
    schedule [sc]: after [k] ticks whose polls all report a "DELETE..."
    status, either the select takes the [ctx.Done()] case, or it takes one
    more tick and that poll fails with a not-found error. *)
Definition gone_or_cancelled {W} (h : W -> handle_result * W) (w : W)
    (sc : list select_case) : Prop :=
  exists k c rest,
    sc = (repeat TickerC k ++ c :: rest)%list /\
    (forall j, j < k -> reports_deleting (poll_at h j w) = true) /\
    (c = CtxDone \/ (c = TickerC /\ reports_gone (poll_at h k w) = true)).

(** The line the deletion waiter logs for an in-progress poll. *)
Definition deleting_line (name : string) (r : handle_result) : string :=
  match r with
  | (Some st, _) => name ++ "'s status is " ++ st
  | (None, _) => ""
  end.

(** The lines logged for the polls numbered [from], ..., [from + n - 1]. *)
Definition deleting_log {W} (name : string) (h : W -> handle_result * W)
    (w : W) (from n : nat) : list string :=
  map (fun j => deleting_line name (poll_at h j w)) (seq from n).

(** Where an error returned by the active-state waiter comes from, [r]
    being the answer of the last poll. *)
Definition active_error_origin (name : string) (r : status_result)
    (err : error) : Prop :=
  match r with
  | (_, _, Some err') => err = err'
  | (Some st, _, None) =>
      (strings.HasPrefix st "CREATE" = false /\ st <> "ACTIVE" /\
       err = errorString (name ++ " is not creating but " ++ st)) \/
      (st = "CREATE_FAILED" /\ err = errorString "creating is failed")
  | (None, _, None) => False
  end.

(** Where an error returned by the deletion waiter comes from. *)
Definition deleted_error_origin (name : string) (r : handle_result)
    (err : error) : Prop :=
  match r with
  | (_, Some err') => err = err' /\ errors.As_ResourceNotFoundException err' = false
  | (Some st, None) =>
      strings.HasPrefix st "DELETE" = false /\
      err = errorString (name ++ " is not deleting but " ++ st)
  | (None, None) => False
  end.

(** ** Remotes used in the examples *)

(** Deletion polls: the resource is already gone at the first poll. *)
Definition gone_then_deleting : list handle_result :=
  [(None, Some (wrapError "operation error Forecast: DescribeForecast"
                  (ResourceNotFoundException "gone")));
   (Some "DELETE_IN_PROGRESS", None)].

(** Creation polls of a resource that becomes active at the third poll. *)
Definition pending_progress_active : list status_result :=
  [(Some "CREATE_PENDING", None, None);
   (Some "CREATE_IN_PROGRESS", None, None);
   (Some "ACTIVE", None, None)].

(** A remote that records the operations called on it, in order.  Every
    create succeeds with an ARN made of the operation's name; a describe
    answers ResourceNotFoundException once the matching delete was called
    and [alive] before; every delete succeeds. *)
Module Tracing.
Definition created (opname : string)
    : list string -> (option string + error) * list string :=
  fun tr => (inl (Some ("arn:" ++ opname)), (tr ++ [opname])%list).

Definition described (deleteOp opname : string)
    (alive : forecast.DescribeOutput + error)
    : list string -> (forecast.DescribeOutput + error) * list string :=
  fun tr =>
    (if existsb (String.eqb deleteOp) tr
     then inr (ResourceNotFoundException "not found")
     else alive,
     (tr ++ [opname])%list).

Definition deleted (opname : string)
    : list string -> (unit + error) * list string :=
  fun tr => (inl tt, (tr ++ [opname])%list).

Definition active : forecast.DescribeOutput + error :=
  inl {| forecast.Status := Some "ACTIVE";
         forecast.EstimatedTimeRemainingInMinutes := None |}.

(** [exportJob] is what DescribeForecastExportJob answers while the export
    job exists; the other resources are active as soon as created. *)
Definition client (exportJob : forecast.DescribeOutput + error)
    : forecast.Client (list string) :=
  {| forecast.CreateDataset := fun _ => created "CreateDataset";
     forecast.CreateDatasetImportJob := fun _ => created "CreateDatasetImportJob";
     forecast.CreateDatasetGroup := fun _ => created "CreateDatasetGroup";
     forecast.CreatePredictor := fun _ => created "CreatePredictor";
     forecast.CreateForecast := fun _ => created "CreateForecast";
     forecast.CreateForecastExportJob := fun _ => created "CreateForecastExportJob";
     forecast.DescribeDatasetImportJob := fun _ =>
       described "DeleteDatasetImportJob" "DescribeDatasetImportJob" active;
     forecast.DescribePredictor := fun _ =>
       described "DeletePredictor" "DescribePredictor" active;
     forecast.DescribeForecast := fun _ =>
       described "DeleteForecast" "DescribeForecast" active;
     forecast.DescribeForecastExportJob := fun _ =>
       described "DeleteForecastExportJob" "DescribeForecastExportJob" exportJob;
     forecast.DeleteForecastExportJob := fun _ => deleted "DeleteForecastExportJob";
     forecast.DeleteForecast := fun _ => deleted "DeleteForecast";
     forecast.DeletePredictor := fun _ => deleted "DeletePredictor";
     forecast.DeleteDatasetGroup := fun _ => deleted "DeleteDatasetGroup";
     forecast.DeleteDatasetImportJob := fun _ => deleted "DeleteDatasetImportJob";
     forecast.DeleteDataset := fun _ => deleted "DeleteDataset" |}.

Definition identity : sts.GetCallerIdentityOutput :=
  {| sts.Account := Some "111122223333";
     sts.Arn := Some "arn:aws:iam::111122223333:user/dev";
     sts.UserId := Some "AIDAEXAMPLE" |}.

Definition getCallerIdentity
    : list string -> (sts.GetCallerIdentityOutput + error) * list string :=
  fun tr => (inl identity, (tr ++ ["GetCallerIdentity"])%list).

(** The [Forecast] value [main] builds over this remote in us-east-1. *)
Definition f (exportJob : forecast.DescribeOutput + error)
    : Forecast (list string) :=
  {| region := "us-east-1";
     svc := client exportJob;
     query := forecastquery.NewFromConfig;
     caller := Some identity |}.

Definition create_failed : forecast.DescribeOutput + error :=
  inl {| forecast.Status := Some "CREATE_FAILED";
         forecast.EstimatedTimeRemainingInMinutes := None |}.
End Tracing.

(** A remote that records the operations called on it, the describes with
    their ARN.  Every create and every delete is refused with [err]; a
    describe answers [answer] applied to the ARN it is given. *)
Module Refusing.
Definition refused {A} (opname : string) (err : error)
    : list string -> (A + error) * list string :=
  fun tr => (inr err, (tr ++ [opname])%list).

Definition described (opname : string)
    (answer : option string -> forecast.DescribeOutput + error)
    (arn : option string)
    : list string -> (forecast.DescribeOutput + error) * list string :=
  fun tr =>
    (answer arn,
     (tr ++ [(opname ++ " " ++ match arn with Some a => a | None => "nil" end)%string])%list).

Definition client (err : error)
    (answer : option string -> forecast.DescribeOutput + error)
    : forecast.Client (list string) :=
  {| forecast.CreateDataset := fun _ => refused "CreateDataset" err;
     forecast.CreateDatasetImportJob := fun _ => refused "CreateDatasetImportJob" err;
     forecast.CreateDatasetGroup := fun _ => refused "CreateDatasetGroup" err;
     forecast.CreatePredictor := fun _ => refused "CreatePredictor" err;
     forecast.CreateForecast := fun _ => refused "CreateForecast" err;
     forecast.CreateForecastExportJob := fun _ => refused "CreateForecastExportJob" err;
     forecast.DescribeDatasetImportJob := described "DescribeDatasetImportJob" answer;
     forecast.DescribePredictor := described "DescribePredictor" answer;
     forecast.DescribeForecast := described "DescribeForecast" answer;
     forecast.DescribeForecastExportJob := described "DescribeForecastExportJob" answer;
     forecast.DeleteForecastExportJob := fun _ => refused "DeleteForecastExportJob" err;
     forecast.DeleteForecast := fun _ => refused "DeleteForecast" err;
     forecast.DeletePredictor := fun _ => refused "DeletePredictor" err;
     forecast.DeleteDatasetGroup := fun _ => refused "DeleteDatasetGroup" err;
     forecast.DeleteDatasetImportJob := fun _ => refused "DeleteDatasetImportJob" err;
     forecast.DeleteDataset := fun _ => refused "DeleteDataset" err |}.

Definition f (err : error)
    (answer : option string -> forecast.DescribeOutput + error)
    : Forecast (list string) :=
  {| region := "us-east-1";
     svc := client err answer;
     query := forecastquery.NewFromConfig;
     caller := Some Tracing.identity |}.

(** Only the resource named [arn] exists, and it is active. *)
Definition active_at (arn : string)
    : option string -> forecast.DescribeOutput + error :=
  fun a =>
    match a with
    | Some a' =>
        if a' =? arn then Tracing.active
        else inr (ResourceNotFoundException "no such resource")
    | None => inr (otherError "ValidationException" "arn required")
    end.




Definition not_found : error := ResourceNotFoundException "no such resource".
End Refusing.

(** Every output of a describe operation of the client carries a status. *)
Definition describes_carry_status {W} (cl : forecast.Client W) : Prop :=
  forall arn w desc w',
    forecast.DescribeDatasetImportJob cl arn w = (inl desc, w') \/
    forecast.DescribePredictor cl arn w = (inl desc, w') \/
    forecast.DescribeForecast cl arn w = (inl desc, w') \/
    forecast.DescribeForecastExportJob cl arn w = (inl desc, w') ->
    forecast.Status desc <> None.

(** The call ends without a nil dereference. *)
Definition no_panic {W A} (r : result W A) : Prop :=
  match r with
  | Panic _ => False
  | _ => True
  end.

(** The call returns or panics, having taken no select case of [e]. *)
Definition ends_without_select {W A} (e : env W) (r : result W A) : Prop :=
  match r with
  | Done _ e' | Panic e' => pending e' = pending e
  | Blocked _ | Exited _ => False
  end.

(** * Properties *)

(** ** The loops continue where they were blocked *)

Section LoopFacts.
Context {W : Type}.
Implicit Types (name : string) (w : W) (lg : list string)
  (pre rest sc : list select_case).

Lemma waitForActive_loop_app name (h : W -> status_result * W) pre rest : forall w lg w1 lg1,
  waitForActive_loop name h pre w lg = Blocked (mkEnv w1 [] lg1) ->
  waitForActive_loop name h (pre ++ rest) w lg
  = waitForActive_loop name h rest w1 lg1.
Proof.
  induction pre as [|c pre IH]; intros w lg w1 lg1 Hb.
  - simpl in Hb. injection Hb as -> ->. reflexivity.
  - destruct c; simpl in *; [|discriminate].
    destruct (h w) as [[[status rem] err] w'].
    destruct err; [discriminate|].
    destruct status as [st|]; [|discriminate].
    destruct (st =? "ACTIVE"); [discriminate|].
    destruct (negb (strings.HasPrefix st "CREATE")); [discriminate|].
    destruct (st =? "CREATE_FAILED"); [discriminate|].
    now apply IH.
Qed.

Lemma waitForDeleted_loop_app name (h : W -> handle_result * W) pre rest : forall w lg w1 lg1,
  waitForDeleted_loop name h pre w lg = Blocked (mkEnv w1 [] lg1) ->
  waitForDeleted_loop name h (pre ++ rest) w lg
  = waitForDeleted_loop name h rest w1 lg1.
Proof.
  induction pre as [|c pre IH]; intros w lg w1 lg1 Hb.
  - simpl in Hb. injection Hb as -> ->. reflexivity.
  - destruct c; simpl in *; [|discriminate].
    destruct (h w) as [[status err] w'].
    destruct err as [err|].
    { destruct (errors.As_ResourceNotFoundException err); discriminate. }
    destruct status as [st|]; [|discriminate].
    destruct (negb (strings.HasPrefix st "DELETE")); [discriminate|].
    destruct (st =? "DELTE_FAILED"); [discriminate|].
    now apply IH.
Qed.

(** A blocked loop has used up its schedule. *)
Lemma waitForActive_loop_blocked name (h : W -> status_result * W) sc : forall w lg e,
  waitForActive_loop name h sc w lg = Blocked e -> pending e = [].
Proof.
  induction sc as [|c sc IH]; intros w lg e Hb.
  - simpl in Hb. injection Hb as <-. reflexivity.
  - destruct c; simpl in *; [|discriminate].
    destruct (h w) as [[[status rem] err] w'].
    destruct err; [discriminate|].
    destruct status as [st|]; [|discriminate].
    destruct (st =? "ACTIVE"); [discriminate|].
    destruct (negb (strings.HasPrefix st "CREATE")); [discriminate|].
    destruct (st =? "CREATE_FAILED"); [discriminate|].
    eapply IH; eassumption.
Qed.

End LoopFacts.

(** ** Cancellation *)

(** C3. In both waiters, when the select takes the [ctx.Done()] case while
    the waiter is still polling (the select cases [pre] taken so far left it
    in the loop), the waiter returns the nil error; the remote state and the
    log are those reached by the last poll. *)
Theorem cancellation_returns_nil {W : Type} (name : string) :
  (forall (h : W -> status_result * W) pre rest w lg w1 lg1,
      waitForActive name h (mkEnv w pre lg) = Blocked (mkEnv w1 [] lg1) ->
      waitForActive name h (mkEnv w (pre ++ CtxDone :: rest) lg)
      = Done None (mkEnv w1 rest lg1)) /\
  (forall (h : W -> handle_result * W) pre rest w lg w1 lg1,
      waitForDeleted name h (mkEnv w pre lg) = Blocked (mkEnv w1 [] lg1) ->
      waitForDeleted name h (mkEnv w (pre ++ CtxDone :: rest) lg)
      = Done None (mkEnv w1 rest lg1)).
Proof.
  split; intros h pre rest w lg w1 lg1 Hb; unfold waitForActive, waitForDeleted in *;
    simpl in *.
  - now rewrite (waitForActive_loop_app _ _ _ _ _ _ _ _ Hb).
  - now rewrite (waitForDeleted_loop_app _ _ _ _ _ _ _ _ Hb).
Qed.

Lemma cancellation_returns_nil_witness :
  (waitForActive "forecast" (scripted (None, None, None))
     (mkEnv [(Some "CREATE_PENDING", Some 5%Z, None)] [TickerC] [])
   = Blocked (mkEnv [] [] ["forecast's status is CREATE_PENDING. remaining 5 mins"])
   /\
   waitForActive "forecast" (scripted (None, None, None))
     (mkEnv [(Some "CREATE_PENDING", Some 5%Z, None)] ([TickerC] ++ [CtxDone; TickerC]) [])
   = Done None (mkEnv [] [TickerC]
                  ["forecast's status is CREATE_PENDING. remaining 5 mins"]))
  /\
  (waitForDeleted "forecast" (scripted (None, None))
     (mkEnv [(Some "DELETE_PENDING", None)] [TickerC] [])
   = Blocked (mkEnv [] [] ["forecast's status is DELETE_PENDING"])
   /\
   waitForDeleted "forecast" (scripted (None, None))
     (mkEnv [(Some "DELETE_PENDING", None)] ([TickerC] ++ [CtxDone; TickerC]) [])
   = Done None (mkEnv [] [TickerC] ["forecast's status is DELETE_PENDING"])).
Proof.
  split; (split; [reflexivity|]).
  - apply (proj1 (cancellation_returns_nil "forecast")). reflexivity.
  - apply (proj2 (cancellation_returns_nil "forecast")). reflexivity.
Defined.

(** ** The active-state waiter *)

(** C6. When a poll of the active-state waiter reports exactly
    "CREATE_FAILED" while the waiter is still polling, the waiter returns
    the error "creating is failed". *)
Theorem waitForActive_create_failed {W : Type} (name : string)
    (h : W -> status_result * W) pre rest w lg w1 lg1 remainingMin w2 :
  waitForActive name h (mkEnv w pre lg) = Blocked (mkEnv w1 [] lg1) ->
  h w1 = ((Some "CREATE_FAILED", remainingMin, None), w2) ->
  waitForActive name h (mkEnv w (pre ++ TickerC :: rest) lg)
  = Done (Some (errorString "creating is failed")) (mkEnv w2 rest lg1).
Proof.
  unfold waitForActive; simpl. intros Hb Hp.
  rewrite (waitForActive_loop_app _ _ _ _ _ _ _ _ Hb). simpl.
  rewrite Hp. reflexivity.
Qed.

Lemma waitForActive_create_failed_witness :
  waitForActive "predictor" (scripted (None, None, None))
    (mkEnv [(Some "CREATE_IN_PROGRESS", None, None); (Some "CREATE_FAILED", None, None)]
       ([TickerC] ++ TickerC :: [TickerC]) [])
  = Done (Some (errorString "creating is failed")) (mkEnv [] [TickerC] []).
Proof.
  apply (waitForActive_create_failed "predictor" (scripted (None, None, None))
           [TickerC] [TickerC]
           [(Some "CREATE_IN_PROGRESS", None, None); (Some "CREATE_FAILED", None, None)]
           [] [(Some "CREATE_FAILED", None, None)] [] None []);
    reflexivity.
Defined.

(** C7. When a poll of the active-state waiter reports a status that is not
    "ACTIVE" and does not start with "CREATE" while the waiter is still
    polling, the waiter returns the error "<name> is not creating but
    <status>". *)
Theorem waitForActive_unexpected_state {W : Type} (name : string)
    (h : W -> status_result * W) pre rest w lg w1 lg1 st remainingMin w2 :
  waitForActive name h (mkEnv w pre lg) = Blocked (mkEnv w1 [] lg1) ->
  h w1 = ((Some st, remainingMin, None), w2) ->
  st <> "ACTIVE" ->
  strings.HasPrefix st "CREATE" = false ->
  waitForActive name h (mkEnv w (pre ++ TickerC :: rest) lg)
  = Done (Some (errorString (name ++ " is not creating but " ++ st)))
         (mkEnv w2 rest lg1).
Proof.
  unfold waitForActive; simpl. intros Hb Hp Hna Hpre.
  rewrite (waitForActive_loop_app _ _ _ _ _ _ _ _ Hb). simpl.
  rewrite Hp. apply String.eqb_neq in Hna. rewrite Hna, Hpre. reflexivity.
Qed.

Lemma waitForActive_unexpected_state_witness :
  waitForActive "forecast" (always (Some "SUSPENDED", None, None))
    (mkEnv tt ([] ++ TickerC :: []) [])
  = Done (Some (errorString "forecast is not creating but SUSPENDED")) (mkEnv tt [] []).
Proof.
  apply (waitForActive_unexpected_state "forecast"
           (always (Some "SUSPENDED", None, None)) [] [] tt [] tt [] "SUSPENDED" None tt);
    [reflexivity | reflexivity | discriminate | reflexivity].
Defined.

(** ** The deletion waiter *)

(** C8. When a poll of the deletion waiter fails with an error that is a
    ResourceNotFoundException while the waiter is still polling -- also when
    it is the first poll, [pre] being empty -- the waiter returns the nil
    error at once: the remote state is the one that poll left, and the rest
    of the schedule is untouched. *)
Theorem waitForDeleted_not_found {W : Type} (name : string)
    (h : W -> handle_result * W) pre rest w lg w1 lg1 status err w2 :
  waitForDeleted name h (mkEnv w pre lg) = Blocked (mkEnv w1 [] lg1) ->
  h w1 = ((status, Some err), w2) ->
  errors.As_ResourceNotFoundException err = true ->
  waitForDeleted name h (mkEnv w (pre ++ TickerC :: rest) lg)
  = Done None (mkEnv w2 rest lg1).
Proof.
  unfold waitForDeleted; simpl. intros Hb Hp Hnf.
  rewrite (waitForDeleted_loop_app _ _ _ _ _ _ _ _ Hb). simpl.
  rewrite Hp, Hnf. reflexivity.
Qed.

Lemma waitForDeleted_not_found_witness :
  waitForDeleted "forecast" (scripted (Some "DELETE_PENDING", None))
    (mkEnv gone_then_deleting ([] ++ TickerC :: [TickerC; TickerC]) [])
  = Done None (mkEnv [(Some "DELETE_IN_PROGRESS", None)] [TickerC; TickerC] []).
Proof.
  apply (waitForDeleted_not_found "forecast" (scripted (Some "DELETE_PENDING", None))
           [] [TickerC; TickerC] gone_then_deleting [] gone_then_deleting [] None
           (wrapError "operation error Forecast: DescribeForecast"
              (ResourceNotFoundException "gone"))
           [(Some "DELETE_IN_PROGRESS", None)]);
    reflexivity.
Defined.

(** ** The idempotent creator *)

(** C4. When the create closure fails with an error that is a
    ResourceAlreadyExistsException, [skipIfAlreadyExists] returns, with the
    nil error, the handle arn:aws:forecast:<region>:<account>:<resource>/<name>,
    whatever handle the failed closure returned; it logs the skip. *)
Theorem skipIfAlreadyExists_already_exists {W : Type} (f : Forecast W)
    (resource name : string) (h : W -> handle_result * W) e arn err w' c account :
  h (remote e) = ((arn, Some err), w') ->
  errors.As_ResourceAlreadyExistsException err = true ->
  caller f = Some c ->
  sts.Account c = Some account ->
  skipIfAlreadyExists f resource name h e
  = Done (Some ("arn:aws:forecast:" ++ region f ++ ":" ++ account ++ ":"
                  ++ resource ++ "/" ++ name), None)
         (mkEnv w' (pending e)
            (logged e ++ ["skip to create " ++ resource ++ " already exists"])).
Proof.
  intros Hh Hex Hc Ha.
  unfold skipIfAlreadyExists, bind, call. rewrite Hh. simpl.
  rewrite Hex. unfold log_Print, deref, ret. simpl.
  rewrite Hc, Ha. reflexivity.
Qed.

Lemma skipIfAlreadyExists_already_exists_witness :
  skipIfAlreadyExists (Tracing.f Tracing.active) "dataset" "d1"
    (always_on (Some "partial", Some (ResourceAlreadyExistsException "exists")))
    (mkEnv [] [] [])
  = Done (Some "arn:aws:forecast:us-east-1:111122223333:dataset/d1", None)
         (mkEnv [] [] ["skip to create dataset already exists"]).
Proof.
  apply (skipIfAlreadyExists_already_exists (Tracing.f Tracing.active) "dataset" "d1"
           (always_on (Some "partial", Some (ResourceAlreadyExistsException "exists")))
           (mkEnv [] [] []) (Some "partial")
           (ResourceAlreadyExistsException "exists") [] Tracing.identity "111122223333");
    reflexivity.
Defined.

(** ** Propagation of errors *)

(** C9. An error of the create closure that is not a
    ResourceAlreadyExistsException is returned as it is by
    [skipIfAlreadyExists], after the single call of the closure; any error of
    a poll is returned as it is by [waitForActive], and an error of a poll
    that is not a ResourceNotFoundException is returned as it is by
    [waitForDeleted], in both cases at the tick of that poll, with no further
    poll: the remote state is the one the failed call left. *)
Theorem other_errors_propagate {W : Type} (err : error) :
  (forall (f : Forecast W) resource name (h : W -> handle_result * W) e arn w',
      h (remote e) = ((arn, Some err), w') ->
      errors.As_ResourceAlreadyExistsException err = false ->
      skipIfAlreadyExists f resource name h e
      = Done (None, Some err) (mkEnv w' (pending e) (logged e))) /\
  (forall name (h : W -> status_result * W) pre rest w lg w1 lg1 status rem w2,
      waitForActive name h (mkEnv w pre lg) = Blocked (mkEnv w1 [] lg1) ->
      h w1 = ((status, rem, Some err), w2) ->
      waitForActive name h (mkEnv w (pre ++ TickerC :: rest) lg)
      = Done (Some err) (mkEnv w2 rest lg1)) /\
  (forall name (h : W -> handle_result * W) pre rest w lg w1 lg1 status w2,
      waitForDeleted name h (mkEnv w pre lg) = Blocked (mkEnv w1 [] lg1) ->
      h w1 = ((status, Some err), w2) ->
      errors.As_ResourceNotFoundException err = false ->
      waitForDeleted name h (mkEnv w (pre ++ TickerC :: rest) lg)
      = Done (Some err) (mkEnv w2 rest lg1)).
Proof.
  split; [|split].
  - intros f resource name h e arn w' Hh Hex.
    unfold skipIfAlreadyExists, bind, call. rewrite Hh. simpl.
    rewrite Hex. reflexivity.
  - intros name h pre rest w lg w1 lg1 status rem w2 Hb Hp.
    unfold waitForActive in *; simpl in *.
    rewrite (waitForActive_loop_app _ _ _ _ _ _ _ _ Hb). simpl.
    rewrite Hp. reflexivity.
  - intros name h pre rest w lg w1 lg1 status w2 Hb Hp Hnf.
    unfold waitForDeleted in *; simpl in *.
    rewrite (waitForDeleted_loop_app _ _ _ _ _ _ _ _ Hb). simpl.
    rewrite Hp, Hnf. reflexivity.
Qed.

Lemma other_errors_propagate_witness :
  skipIfAlreadyExists (Tracing.f Tracing.active) "dataset" "d1"
    (always_on (Some "partial", Some (otherError "LimitExceededException" "quota")))
    (mkEnv [] [] [])
  = Done (None, Some (otherError "LimitExceededException" "quota")) (mkEnv [] [] [])
  /\
  waitForActive "forecast" (always (None, None, Some (otherError "LimitExceededException" "quota")))
    (mkEnv tt ([] ++ TickerC :: [TickerC]) [])
  = Done (Some (otherError "LimitExceededException" "quota")) (mkEnv tt [TickerC] [])
  /\
  waitForDeleted "forecast" (always (None, Some (otherError "LimitExceededException" "quota")))
    (mkEnv tt ([] ++ TickerC :: [TickerC]) [])
  = Done (Some (otherError "LimitExceededException" "quota")) (mkEnv tt [TickerC] []).
Proof.
  set (quota := otherError "LimitExceededException" "quota").
  split; [|split].
  - apply (proj1 (other_errors_propagate quota) (Tracing.f Tracing.active)
             "dataset" "d1" _ (mkEnv [] [] []) (Some "partial") []);
      reflexivity.
  - apply (proj1 (proj2 (other_errors_propagate quota))
             "forecast" _ [] [TickerC] tt [] tt [] None None tt);
      reflexivity.
  - apply (proj2 (proj2 (other_errors_propagate quota))
             "forecast" _ [] [TickerC] tt [] tt [] None tt);
      reflexivity.
Defined.

(** ** Reading the status *)

Section NoPanic.
Context {W : Type}.

Lemma waitForActive_loop_no_panic name (h : W -> status_result * W) :
  status_or_error3 h ->
  forall sc w lg e, waitForActive_loop name h sc w lg <> Panic e.
Proof.
  intros Hc sc. induction sc as [|c sc IH]; intros w lg e; simpl; [discriminate|].
  destruct c; [|discriminate].
  destruct (h w) as [[[status rem] err] w'] eqn:Hh.
  destruct err; [discriminate|].
  destruct status as [st|]; [|now apply Hc in Hh].
  destruct (st =? "ACTIVE"); [discriminate|].
  destruct (negb (strings.HasPrefix st "CREATE")); [discriminate|].
  destruct (st =? "CREATE_FAILED"); [discriminate|].
  apply IH.
Qed.

Lemma waitForDeleted_loop_no_panic name (h : W -> handle_result * W) :
  status_or_error2 h ->
  forall sc w lg e, waitForDeleted_loop name h sc w lg <> Panic e.
Proof.
  intros Hc sc. induction sc as [|c sc IH]; intros w lg e; simpl; [discriminate|].
  destruct c; [|discriminate].
  destruct (h w) as [[status err] w'] eqn:Hh.
  destruct err as [err|].
  { destruct (errors.As_ResourceNotFoundException err); discriminate. }
  destruct status as [st|]; [|now apply Hc in Hh].
  destruct (negb (strings.HasPrefix st "DELETE")); [discriminate|].
  destruct (st =? "DELTE_FAILED"); [discriminate|].
  apply IH.
Qed.
End NoPanic.

(** C10. With a poll function that returns a non-nil status whenever it
    returns the nil error, neither waiter panics, on any schedule; and the
    read has no guard of its own: a poll that returns the nil status with the
    nil error while the waiter is polling makes it panic. *)
Theorem status_read_is_guarded_by_the_poll_contract {W : Type} (name : string) :
  (forall (h : W -> status_result * W), status_or_error3 h ->
      forall e e', waitForActive name h e <> Panic e') /\
  (forall (h : W -> handle_result * W), status_or_error2 h ->
      forall e e', waitForDeleted name h e <> Panic e') /\
  (forall (h : W -> status_result * W) pre rest w lg w1 lg1 remainingMin w2,
      waitForActive name h (mkEnv w pre lg) = Blocked (mkEnv w1 [] lg1) ->
      h w1 = ((None, remainingMin, None), w2) ->
      waitForActive name h (mkEnv w (pre ++ TickerC :: rest) lg)
      = Panic (mkEnv w2 rest lg1)) /\
  (forall (h : W -> handle_result * W) pre rest w lg w1 lg1 w2,
      waitForDeleted name h (mkEnv w pre lg) = Blocked (mkEnv w1 [] lg1) ->
      h w1 = ((None, None), w2) ->
      waitForDeleted name h (mkEnv w (pre ++ TickerC :: rest) lg)
      = Panic (mkEnv w2 rest lg1)).
Proof.
  repeat split.
  - intros h Hc e e'. now apply waitForActive_loop_no_panic.
  - intros h Hc e e'. now apply waitForDeleted_loop_no_panic.
  - intros h pre rest w lg w1 lg1 rem w2 Hb Hp.
    unfold waitForActive in *; simpl in *.
    rewrite (waitForActive_loop_app _ _ _ _ _ _ _ _ Hb). simpl.
    rewrite Hp. reflexivity.
  - intros h pre rest w lg w1 lg1 w2 Hb Hp.
    unfold waitForDeleted in *; simpl in *.
    rewrite (waitForDeleted_loop_app _ _ _ _ _ _ _ _ Hb). simpl.
    rewrite Hp. reflexivity.
Qed.

Lemma status_read_is_guarded_by_the_poll_contract_witness :
  (status_or_error3 (always (Some "CREATE_PENDING", None, None)) /\
   waitForActive "forecast" (always (Some "CREATE_PENDING", None, None))
     (mkEnv tt [TickerC; TickerC] [])
   <> Panic (mkEnv tt [] []))
  /\
  (status_or_error2 (always (Some "DELETE_PENDING", None)) /\
   waitForDeleted "forecast" (always (Some "DELETE_PENDING", None))
     (mkEnv tt [TickerC; TickerC] [])
   <> Panic (mkEnv tt [] []))
  /\
  waitForActive "forecast" (always (None, None, None))
    (mkEnv tt ([] ++ TickerC :: [TickerC]) [])
  = Panic (mkEnv tt [TickerC] [])
  /\
  waitForDeleted "forecast" (always (None, None))
    (mkEnv tt ([] ++ TickerC :: [TickerC]) [])
  = Panic (mkEnv tt [TickerC] []).
Proof.
  assert (H3 : status_or_error3 (always (Some "CREATE_PENDING", None, None)))
    by (intros w rem w'; discriminate).
  assert (H2 : status_or_error2 (always (Some "DELETE_PENDING", None)))
    by (intros w w'; discriminate).
  split; [|split; [|split]].
  - split; [exact H3|].
    apply (proj1 (status_read_is_guarded_by_the_poll_contract "forecast") _ H3).
  - split; [exact H2|].
    apply (proj1 (proj2 (status_read_is_guarded_by_the_poll_contract "forecast")) _ H2).
  - apply (proj1 (proj2 (proj2 (status_read_is_guarded_by_the_poll_contract "forecast")))
             _ [] [TickerC] tt [] tt [] None tt); reflexivity.
  - apply (proj2 (proj2 (proj2 (status_read_is_guarded_by_the_poll_contract "forecast")))
             _ [] [TickerC] tt [] tt [] tt); reflexivity.
Defined.

(** ** When the active-state waiter succeeds *)

Section ActiveSuccess.
Context {W : Type}.
Variable name : string.
Variable h : W -> status_result * W.

Lemma creating_not_active (r : status_result) :
  reports_creating r = true -> reports_active r = false.
Proof.
  destruct r as [[[st|] rem] [err|]]; simpl; try discriminate.
  destruct (String.eqb_spec st "ACTIVE") as [->|]; [discriminate|reflexivity].
Qed.

(** A tick whose poll reports an in-progress status keeps the loop going. *)
Lemma waitForActive_loop_creating sc w lg :
  reports_creating (fst (h w)) = true ->
  exists lg', waitForActive_loop name h (TickerC :: sc) w lg
              = waitForActive_loop name h sc (snd (h w)) lg'.
Proof.
  intros Hc. pose proof (creating_not_active _ Hc) as Ha. simpl.
  destruct (h w) as [[[status rem] err] w']. simpl in *.
  destruct status as [st|]; [|discriminate].
  destruct err; [discriminate|].
  rewrite Ha. apply andb_prop in Hc as [Hp Hf]. rewrite Hp. simpl.
  apply negb_true_iff in Hf. rewrite Hf.
  eexists. reflexivity.
Qed.

(** A tick whose poll reports anything else ends the loop, with the nil
    error exactly when the status is "ACTIVE". *)
Lemma waitForActive_loop_terminal sc w lg :
  reports_creating (fst (h w)) = false ->
  (exists e, waitForActive_loop name h (TickerC :: sc) w lg = Done None e) <->
  reports_active (fst (h w)) = true.
Proof.
  intros Hc. simpl.
  destruct (h w) as [[[status rem] err] w']. simpl in *.
  destruct err as [err|].
  { destruct status; split; try discriminate; intros [e He]; discriminate. }
  destruct status as [st|].
  2:{ split; [intros [e He]|]; discriminate. }
  destruct (st =? "ACTIVE").
  { split; [reflexivity | intros _; eexists; reflexivity]. }
  destruct (strings.HasPrefix st "CREATE"); simpl in *.
  - apply negb_false_iff in Hc. rewrite Hc.
    split; [intros [e He]|]; discriminate.
  - split; [intros [e He]|]; discriminate.
Qed.

Lemma waitForActive_loop_success sc : forall w lg,
  (exists e, waitForActive_loop name h sc w lg = Done None e) <->
  active_or_cancelled h w sc.
Proof.
  induction sc as [|c sc IH]; intros w lg.
  - split.
    + intros [e He]. discriminate.
    + intros (k & c & rest & Heq & _). now destruct k.
  - destruct c.
    + destruct (reports_creating (fst (h w))) eqn:Hc.
      * destruct (waitForActive_loop_creating sc w lg Hc) as [lg' ->].
        rewrite IH. split.
        -- intros (k & c & rest & -> & Hpre & Hend).
           exists (S k), c, rest. split; [reflexivity|]. split; [|exact Hend].
           intros [|j] Hj; [exact Hc|]. apply Hpre. lia.
        -- intros (k & c & rest & Heq & Hpre & Hend).
           destruct k as [|k].
           ++ simpl in Heq. injection Heq as <- <-.
              destruct Hend as [|[_ Ha]]; [discriminate|].
              unfold poll_at in Ha. simpl in Ha.
              rewrite (creating_not_active _ Hc) in Ha. discriminate.
           ++ simpl in Heq. injection Heq as ->.
              exists k, c, rest. split; [reflexivity|]. split; [|exact Hend].
              intros j Hj. apply (Hpre (S j)). lia.
      * rewrite (waitForActive_loop_terminal sc w lg Hc). split.
        -- intros Ha. exists 0, TickerC, sc.
           split; [reflexivity|]. split; [intros j Hj; lia|].
           right. split; [reflexivity|exact Ha].
        -- intros (k & c & rest & Heq & Hpre & Hend).
           destruct k as [|k].
           ++ simpl in Heq. injection Heq as <- <-.
              destruct Hend as [|[_ Ha]]; [discriminate|exact Ha].
           ++ specialize (Hpre 0 ltac:(lia)). unfold poll_at in Hpre.
              simpl in Hpre. congruence.
    + split.
      * intros _. exists 0, CtxDone, sc.
        split; [reflexivity|]. split; [intros j Hj; lia|]. now left.
      * intros _. simpl. eexists. reflexivity.
Qed.
End ActiveSuccess.

Lemma poll_at_always {A} (r : A) (k : nat) : poll_at (always r) k tt = r.
Proof.
  unfold poll_at. induction k as [|k IH]; simpl; [reflexivity|exact IH].
Qed.

(** C5, as the code has it. The active-state waiter returns the nil error
    exactly when, after polls that all report an in-progress status (it
    starts with "CREATE" and is not "CREATE_FAILED", with the nil error),
    either a poll reports "ACTIVE" or the select takes the [ctx.Done()]
    case. On schedules without cancellation this is: the poll sequence
    eventually reports "ACTIVE", every earlier poll reporting an in-progress
    status. For the polls CREATE_PENDING, CREATE_IN_PROGRESS, ACTIVE the
    waiter returns the nil error at the third tick and not before. *)
Theorem waitForActive_success_iff {W : Type} (name : string)
    (h : W -> status_result * W) (w : W) (lg : list string) :
  (forall sc,
      (exists e, waitForActive name h (mkEnv w sc lg) = Done None e) <->
      active_or_cancelled h w sc) /\
  ((exists n e, waitForActive name h (mkEnv w (repeat TickerC n) lg) = Done None e) <->
   eventually_active h w) /\
  (forall rest,
      waitForActive name (scripted (None, None, None))
        (mkEnv pending_progress_active (TickerC :: TickerC :: TickerC :: rest) lg)
      = Done None (mkEnv [] rest lg)) /\
  waitForActive name (scripted (None, None, None))
    (mkEnv pending_progress_active [TickerC; TickerC] lg)
  = Blocked (mkEnv [(Some "ACTIVE", None, None)] [] lg).
Proof.
  split; [|split; [|split]].
  - intros sc. apply waitForActive_loop_success.
  - unfold waitForActive; simpl. split.
    + intros (n & e & He).
      destruct (proj1 (waitForActive_loop_success name h (repeat TickerC n) w lg)
                  (ex_intro _ e He)) as (k & c & rest & Heq & Hpre & Hend).
      assert (Hc : c = TickerC).
      { apply (repeat_spec n TickerC c). rewrite Heq.
        apply in_or_app. right. now left. }
      subst c. destruct Hend as [|[_ Ha]]; [discriminate|].
      exists k. split; assumption.
    + intros (k & Ha & Hpre).
      destruct (proj2 (waitForActive_loop_success name h (repeat TickerC (k + 1)) w lg))
        as [e He].
      * exists k, TickerC, []. split; [apply repeat_app|].
        split; [exact Hpre|]. right. split; [reflexivity|exact Ha].
      * exists (k + 1), e. exact He.
  - reflexivity.
  - reflexivity.
Qed.

(** C5 as stated fails: the waiter returns the nil error on a cancellation,
    while no poll ever reports "ACTIVE". *)
Lemma waitForActive_success_without_active :
  ~ ((exists e, waitForActive "forecast" (always (Some "CREATE_PENDING", None, None))
                  (mkEnv tt [TickerC; CtxDone] []) = Done None e) <->
     eventually_active (always (Some "CREATE_PENDING", None, None)) tt).
Proof.
  intros [H _]. destruct H as (k & Ha & _).
  - eexists. reflexivity.
  - rewrite poll_at_always in Ha. discriminate.
Qed.

(** ** The deletion-failed status *)

Lemma waitForDeleted_loop_DELETE_FAILED name (n : nat) : forall lg,
  waitForDeleted_loop name (always (Some "DELETE_FAILED", None)) (repeat TickerC n) tt lg
  = Blocked (mkEnv tt [] (lg ++ repeat (name ++ "'s status is DELETE_FAILED") n)).
Proof.
  induction n as [|n IH]; intros lg; simpl.
  - now rewrite app_nil_r.
  - rewrite IH. now rewrite <- app_assoc.
Qed.

(** No status reaches the return of "deleting is failed": a status with the
    "DELETE" prefix is never the misspelt "DELTE_FAILED". *)
Lemma DELTE_FAILED_branch_unreachable (st : string) :
  strings.HasPrefix st "DELETE" = true -> (st =? "DELTE_FAILED") = false.
Proof.
  intros Hp. destruct (String.eqb_spec st "DELTE_FAILED") as [->|]; [|reflexivity].
  discriminate.
Qed.

(** C1, on the code. A deletion waiter whose polls report "DELETE_FAILED"
    does not return: after any number of ticks it is still in its loop,
    having logged the status at each tick; the status that makes it return
    "deleting is failed" would be "DELTE_FAILED", which lacks the "DELETE"
    prefix and is answered by the unexpected-state error. *)
Theorem waitForDeleted_DELETE_FAILED_keeps_polling (name : string) (n : nat) :
  waitForDeleted name (always (Some "DELETE_FAILED", None))
    (mkEnv tt (repeat TickerC n) [])
  = Blocked (mkEnv tt [] (repeat (name ++ "'s status is DELETE_FAILED") n))
  /\
  waitForDeleted name (always (Some "DELTE_FAILED", None))
    (mkEnv tt (TickerC :: repeat TickerC n) [])
  = Done (Some (errorString (name ++ " is not deleting but DELTE_FAILED")))
         (mkEnv tt (repeat TickerC n) []).
Proof.
  split.
  - unfold waitForDeleted; simpl. apply waitForDeleted_loop_DELETE_FAILED.
  - reflexivity.
Qed.

(** ** Create, then wait *)

Section CreateThenWait.
Context {W : Type}.
Variable f : Forecast W.

(** [CreateForecast] returns the error of its active wait; so do
    [CreateDatasetImportJob] and [CreatePredictor]. *)
Lemma CreateForecast_returns_wait_error name predictorArn e arn e1 err e2 :
  skipIfAlreadyExists f "forecast" name
    (create_closure (forecast.CreateForecast (svc f)
       {| forecast.ForecastName := Some name;
          forecast.PredictorArn := Some predictorArn |})) e
  = Done (arn, None) e1 ->
  waitForActive "forecast"
    (describe_closure (forecast.DescribeForecast (svc f) arn)
       forecast.EstimatedTimeRemainingInMinutes) e1
  = Done (Some err) e2 ->
  CreateForecast f name predictorArn e = Done (None, Some err) e2.
Proof.
  intros Hs Hw. unfold CreateForecast, bind at 1. rewrite Hs.
  unfold bind. rewrite Hw. reflexivity.
Qed.

Lemma CreatePredictor_returns_wait_error name datasetGroupArn e arn e1 err e2 :
  skipIfAlreadyExists f "predictor" name
    (create_closure (forecast.CreatePredictor (svc f)
       {| forecast.PredictorName := Some name;
          forecast.ForecastHorizon := Some 72%Z;
          forecast.ForecastFrequency := Some "H";
          forecast.PerformAutoML := Some true;
          forecast.DatasetGroupArn := Some datasetGroupArn;
          forecast.SupplementaryFeatures :=
            [ {| types.Name := Some "holiday"; types.Value := Some "US" |} ] |})) e
  = Done (arn, None) e1 ->
  waitForActive "predictor"
    (describe_closure (forecast.DescribePredictor (svc f) arn)
       forecast.EstimatedTimeRemainingInMinutes) e1
  = Done (Some err) e2 ->
  CreatePredictor f name datasetGroupArn e = Done (None, Some err) e2.
Proof.
  intros Hs Hw. unfold CreatePredictor, bind at 1. rewrite Hs.
  unfold bind. rewrite Hw. reflexivity.
Qed.

Lemma CreateDatasetImportJob_returns_wait_error
    name datasetName datasetArn src e arn e1 err e2 :
  skipIfAlreadyExists f ("dataset-import-job/" ++ datasetName) name
    (create_closure (forecast.CreateDatasetImportJob (svc f)
       {| forecast.DatasetImportJobName := Some name;
          forecast.DatasetArn := Some datasetArn;
          forecast.TimeZone := Some "America/Los_Angeles";
          forecast.DataSource := src |})) e
  = Done (arn, None) e1 ->
  waitForActive "dataset-import-job"
    (describe_closure (forecast.DescribeDatasetImportJob (svc f) arn)
       forecast.EstimatedTimeRemainingInMinutes) e1
  = Done (Some err) e2 ->
  CreateDatasetImportJob f name datasetName datasetArn src e
  = Done (None, Some err) e2.
Proof.
  intros Hs Hw. unfold CreateDatasetImportJob, bind at 1. rewrite Hs.
  unfold bind. rewrite Hw. reflexivity.
Qed.
End CreateThenWait.

(** C2, on the code. When the create of the export job succeeds with the
    handle [arn] and the active wait that follows returns the error [err],
    [CreateForecastExportJob] returns [arn] with the nil error: the error of
    the wait is dropped. *)
Theorem CreateForecastExportJob_drops_wait_error {W : Type} (f : Forecast W)
    name forecastName forecastArn dest e arn e1 err e2 :
  skipIfAlreadyExists f ("forecast-export-job/" ++ forecastName) name
    (create_closure (forecast.CreateForecastExportJob (svc f)
       {| forecast.ForecastExportJobName := Some name;
          forecast.ForecastArn := Some forecastArn;
          forecast.Destination := dest |})) e
  = Done (arn, None) e1 ->
  waitForActive "forecast-export-job"
    (describe_closure (forecast.DescribeForecastExportJob (svc f) arn)
       (fun _ => Some 0%Z)) e1
  = Done (Some err) e2 ->
  CreateForecastExportJob f name forecastName forecastArn dest e
  = Done (arn, None) e2.
Proof.
  intros Hs Hw. unfold CreateForecastExportJob, bind at 1. rewrite Hs.
  unfold bind. rewrite Hw. reflexivity.
Qed.

Lemma CreateForecastExportJob_drops_wait_error_witness :
  CreateForecastExportJob (Tracing.f Tracing.create_failed)
    "export_electricityusagedata_forecast" "electricityusagedata_forecast"
    "arn:CreateForecast" None (mkEnv [] [TickerC; TickerC] [])
  = Done (Some "arn:CreateForecastExportJob", None)
         (mkEnv ["CreateForecastExportJob"; "DescribeForecastExportJob"] [TickerC] []).
Proof.
  apply (CreateForecastExportJob_drops_wait_error (Tracing.f Tracing.create_failed)
           "export_electricityusagedata_forecast" "electricityusagedata_forecast"
           "arn:CreateForecast" None (mkEnv [] [TickerC; TickerC] [])
           (Some "arn:CreateForecastExportJob")
           (mkEnv ["CreateForecastExportJob"] [TickerC; TickerC] [])
           (errorString "creating is failed")
           (mkEnv ["CreateForecastExportJob"; "DescribeForecastExportJob"] [TickerC] []));
    reflexivity.
Defined.

(** With an export job that ends in CREATE_FAILED, [main] does not exit at
    the export stage: it goes on to the clean-up and returns, having called
    the same operations and logged the same lines as when the export job
    becomes active. *)
Lemma main_continues_after_failed_export :
  main (inl "us-east-1") (fun _ => Tracing.client Tracing.create_failed)
    Tracing.getCallerIdentity (mkEnv [] (repeat TickerC 8) [])
  = Done tt
      (mkEnv
         ["GetCallerIdentity"; "CreateDataset"; "CreateDatasetImportJob";
          "DescribeDatasetImportJob"; "CreateDatasetGroup";
          "CreatePredictor"; "DescribePredictor"; "CreateForecast";
          "DescribeForecast"; "CreateForecastExportJob";
          "DescribeForecastExportJob"; "DeleteForecastExportJob";
          "DescribeForecastExportJob"; "DeleteForecast";
          "DescribeForecast"; "DeletePredictor"; "DescribePredictor";
          "DeleteDatasetGroup"; "DeleteDatasetImportJob";
          "DescribeDatasetImportJob"; "DeleteDataset"]
         []
         ["create dataset"; "create importDatasetJob";
          "create datasetGroup"; "create predictor"; "create forecast";
          "create forecastExportJob"; "clean up"])
  /\
  main (inl "us-east-1") (fun _ => Tracing.client Tracing.create_failed)
    Tracing.getCallerIdentity (mkEnv [] (repeat TickerC 8) [])
  = main (inl "us-east-1") (fun _ => Tracing.client Tracing.active)
      Tracing.getCallerIdentity (mkEnv [] (repeat TickerC 8) []).
Proof. split; vm_compute; reflexivity. Qed.

(** * Further properties of the waiters *)

(** ** The deletion waiter on a status that is not a deletion *)

(** When a poll of the deletion waiter reports a status that does not start
    with "DELETE" (an "ACTIVE" resource, say) while the waiter is still
    polling, the waiter returns the error "<name> is not deleting but
    <status>". *)
Theorem waitForDeleted_unexpected_state {W : Type} (name : string)
    (h : W -> handle_result * W) pre rest w lg w1 lg1 st w2 :
  waitForDeleted name h (mkEnv w pre lg) = Blocked (mkEnv w1 [] lg1) ->
  h w1 = ((Some st, None), w2) ->
  strings.HasPrefix st "DELETE" = false ->
  waitForDeleted name h (mkEnv w (pre ++ TickerC :: rest) lg)
  = Done (Some (errorString (name ++ " is not deleting but " ++ st)))
         (mkEnv w2 rest lg1).
Proof.
  unfold waitForDeleted; simpl. intros Hb Hp Hpre.
  rewrite (waitForDeleted_loop_app _ _ _ _ _ _ _ _ Hb). simpl.
  rewrite Hp, Hpre. reflexivity.
Qed.

Lemma waitForDeleted_unexpected_state_witness :
  waitForDeleted "predictor" (scripted (None, None))
    (mkEnv [(Some "DELETE_PENDING", None); (Some "ACTIVE", None)]
       ([TickerC] ++ TickerC :: [TickerC]) [])
  = Done (Some (errorString "predictor is not deleting but ACTIVE"))
         (mkEnv [] [TickerC] ["predictor's status is DELETE_PENDING"]).
Proof.
  apply (waitForDeleted_unexpected_state "predictor" (scripted (None, None))
           [TickerC] [TickerC]
           [(Some "DELETE_PENDING", None); (Some "ACTIVE", None)] []
           [(Some "ACTIVE", None)] ["predictor's status is DELETE_PENDING"]
           "ACTIVE" []);
    reflexivity.
Defined.

(** ** When the deletion waiter succeeds *)

Section DeletedSuccess.
Context {W : Type}.
Variable name : string.
Variable h : W -> handle_result * W.

Lemma deleting_not_gone (r : handle_result) :
  reports_deleting r = true -> reports_gone r = false.
Proof.
  destruct r as [[st|] [err|]]; simpl; try discriminate. reflexivity.
Qed.

(** A tick whose poll reports a "DELETE..." status keeps the loop going and
    logs the status. *)
Lemma waitForDeleted_loop_deleting sc w lg :
  reports_deleting (fst (h w)) = true ->
  waitForDeleted_loop name h (TickerC :: sc) w lg
  = waitForDeleted_loop name h sc (snd (h w))
      (lg ++ [deleting_line name (fst (h w))]).
Proof.
  intros Hd. simpl.
  destruct (h w) as [[status err] w']. simpl in *.
  destruct status as [st|]; [|discriminate].
  destruct err; [discriminate|].
  rewrite Hd, (DELTE_FAILED_branch_unreachable st Hd). reflexivity.
Qed.

(** A tick whose poll reports anything else ends the loop, with the nil
    error exactly when the poll failed with a not-found error. *)
Lemma waitForDeleted_loop_terminal sc w lg :
  reports_deleting (fst (h w)) = false ->
  (exists e, waitForDeleted_loop name h (TickerC :: sc) w lg = Done None e) <->
  reports_gone (fst (h w)) = true.
Proof.
  intros Hd. simpl.
  destruct (h w) as [[status err] w']. simpl in *.
  destruct err as [err|].
  { destruct status; destruct (errors.As_ResourceNotFoundException err);
      (split; [intros [e He]; (reflexivity || discriminate)
              | intros Hg; (discriminate || (eexists; reflexivity))]). }
  destruct status as [st|].
  2:{ split; [intros [e He]|]; discriminate. }
  rewrite Hd. simpl. split; [intros [e He]|]; discriminate.
Qed.

Lemma waitForDeleted_loop_success sc : forall w lg,
  (exists e, waitForDeleted_loop name h sc w lg = Done None e) <->
  gone_or_cancelled h w sc.
Proof.
  induction sc as [|c sc IH]; intros w lg.
  - split.
    + intros [e He]. discriminate.
    + intros (k & c & rest & Heq & _). now destruct k.
  - destruct c.
    + destruct (reports_deleting (fst (h w))) eqn:Hd.
      * rewrite (waitForDeleted_loop_deleting sc w lg Hd), IH. split.
        -- intros (k & c & rest & -> & Hpre & Hend).
           exists (S k), c, rest. split; [reflexivity|]. split; [|exact Hend].
           intros [|j] Hj; [exact Hd|]. apply Hpre. lia.
        -- intros (k & c & rest & Heq & Hpre & Hend).
           destruct k as [|k].
           ++ simpl in Heq. injection Heq as <- <-.
              destruct Hend as [|[_ Hg]]; [discriminate|].
              unfold poll_at in Hg. simpl in Hg.
              rewrite (deleting_not_gone _ Hd) in Hg. discriminate.
           ++ simpl in Heq. injection Heq as ->.
              exists k, c, rest. split; [reflexivity|]. split; [|exact Hend].
              intros j Hj. apply (Hpre (S j)). lia.
      * rewrite (waitForDeleted_loop_terminal sc w lg Hd). split.
        -- intros Hg. exists 0, TickerC, sc.
           split; [reflexivity|]. split; [intros j Hj; lia|].
           right. split; [reflexivity|exact Hg].
        -- intros (k & c & rest & Heq & Hpre & Hend).
           destruct k as [|k].
           ++ simpl in Heq. injection Heq as <- <-.
              destruct Hend as [|[_ Hg]]; [discriminate|exact Hg].
           ++ specialize (Hpre 0 ltac:(lia)). unfold poll_at in Hpre.
              simpl in Hpre. congruence.
    + split.
      * intros _. exists 0, CtxDone, sc.
        split; [reflexivity|]. split; [intros j Hj; lia|]. now left.
      * intros _. simpl. eexists. reflexivity.
Qed.
End DeletedSuccess.

(** The deletion waiter returns the nil error exactly when, after polls that
    all report a status starting with "DELETE", either a poll fails with an
    error that is a ResourceNotFoundException or the select takes the
    [ctx.Done()] case.  No status makes it succeed. *)
Theorem waitForDeleted_success_iff {W : Type} (name : string)
    (h : W -> handle_result * W) (w : W) (sc : list select_case)
    (lg : list string) :
  (exists e, waitForDeleted name h (mkEnv w sc lg) = Done None e) <->
  gone_or_cancelled h w sc.
Proof. apply waitForDeleted_loop_success. Qed.

(** ** While the waiters keep waiting *)

Section ActiveBlocked.
Context {W : Type}.
Variable name : string.
Variable h : W -> status_result * W.

Lemma waitForActive_loop_not_creating sc w lg e :
  reports_creating (fst (h w)) = false ->
  waitForActive_loop name h (TickerC :: sc) w lg <> Blocked e.
Proof.
  intros Hc. simpl.
  destruct (h w) as [[[status rem] err] w']. simpl in *.
  destruct err; [discriminate|].
  destruct status as [st|]; [|discriminate].
  destruct (st =? "ACTIVE"); [discriminate|].
  destruct (strings.HasPrefix st "CREATE"); simpl in *; [|discriminate].
  apply negb_false_iff in Hc. rewrite Hc. discriminate.
Qed.

Lemma waitForActive_loop_blocked_inv sc : forall w lg e,
  waitForActive_loop name h sc w lg = Blocked e ->
  sc = repeat TickerC (length sc) /\
  (forall j, j < length sc -> reports_creating (poll_at h j w) = true) /\
  remote e = remote_after h (length sc) w /\
  pending e = [].
Proof.
  induction sc as [|c sc IH]; intros w lg e Hb.
  - simpl in Hb. injection Hb as <-. simpl.
    repeat split. intros j Hj. lia.
  - destruct c; [|discriminate].
    destruct (reports_creating (fst (h w))) eqn:Hc.
    2:{ now apply waitForActive_loop_not_creating in Hb. }
    destruct (waitForActive_loop_creating name h sc w lg Hc) as [lg' Heq].
    rewrite Heq in Hb. apply IH in Hb as (Hsc & Hpre & Hrem & Hpen).
    simpl. repeat split.
    + now rewrite <- Hsc.
    + intros [|j] Hj; [exact Hc|]. apply Hpre. lia.
    + exact Hrem.
    + exact Hpen.
Qed.

Lemma waitForActive_loop_blocked_intro n : forall w lg,
  (forall j, j < n -> reports_creating (poll_at h j w) = true) ->
  exists lg',
    waitForActive_loop name h (repeat TickerC n) w lg
    = Blocked (mkEnv (remote_after h n w) [] lg').
Proof.
  induction n as [|n IH]; intros w lg Hpre.
  - eexists. reflexivity.
  - assert (Hc : reports_creating (fst (h w)) = true) by (apply (Hpre 0); lia).
    destruct (waitForActive_loop_creating name h (repeat TickerC n) w lg Hc)
      as [lg1 Heq].
    destruct (IH (snd (h w)) lg1) as [lg' Hb].
    { intros j Hj. apply (Hpre (S j)). lia. }
    exists lg'. simpl repeat. rewrite Heq. exact Hb.
Qed.
End ActiveBlocked.

(** The active-state waiter is still waiting at the end of a schedule only
    if every select case taken was a tick and every poll reported an
    in-progress status; it has then called the poll function once per tick.
    Conversely, [n] ticks whose polls all report an in-progress status
    leave it waiting: no number of such ticks makes it give up. *)
Theorem waitForActive_waits_while_creating {W : Type} (name : string)
    (h : W -> status_result * W) (w : W) (lg : list string) :
  (forall sc e,
      waitForActive name h (mkEnv w sc lg) = Blocked e ->
      sc = repeat TickerC (length sc) /\
      (forall j, j < length sc -> reports_creating (poll_at h j w) = true) /\
      remote e = remote_after h (length sc) w /\
      pending e = []) /\
  (forall n,
      (forall j, j < n -> reports_creating (poll_at h j w) = true) ->
      exists lg',
        waitForActive name h (mkEnv w (repeat TickerC n) lg)
        = Blocked (mkEnv (remote_after h n w) [] lg')).
Proof.
  split.
  - intros sc e Hb. now apply (waitForActive_loop_blocked_inv name h sc w lg).
  - intros n Hpre. now apply waitForActive_loop_blocked_intro.
Qed.

Lemma waitForActive_waits_while_creating_witness :
  (waitForActive "forecast" (scripted (None, None, None))
     (mkEnv pending_progress_active [TickerC; TickerC] [])
   = Blocked (mkEnv [(Some "ACTIVE", None, None)] [] []) /\
   remote (mkEnv [(Some "ACTIVE", None, None)] ([] : list select_case) ([] : list string))
   = remote_after (scripted (None, None, None)) 2 pending_progress_active)
  /\
  exists lg',
    waitForActive "forecast" (@always status_result (Some "CREATE_IN_PROGRESS", Some 7%Z, None))
      (mkEnv tt (repeat TickerC 3) [])
    = Blocked (mkEnv (remote_after (@always status_result (Some "CREATE_IN_PROGRESS", Some 7%Z, None)) 3 tt)
                 [] lg').
Proof.
  split.
  - split; [reflexivity|].
    apply (proj1 (waitForActive_waits_while_creating "forecast"
                    (scripted (None, None, None)) pending_progress_active [])
             [TickerC; TickerC]).
    reflexivity.
  - apply (proj2 (waitForActive_waits_while_creating "forecast"
                    (@always status_result (Some "CREATE_IN_PROGRESS", Some 7%Z, None)) tt []) 3).
    intros j Hj. rewrite poll_at_always. reflexivity.
Defined.

Section DeletedBlocked.
Context {W : Type}.
Variable name : string.
Variable h : W -> handle_result * W.

Lemma deleting_log_shift w from n :
  deleting_log name h w (S from) n = deleting_log name h (snd (h w)) from n.
Proof.
  unfold deleting_log. rewrite <- seq_shift, map_map. reflexivity.
Qed.

Lemma waitForDeleted_loop_not_deleting sc w lg e :
  reports_deleting (fst (h w)) = false ->
  waitForDeleted_loop name h (TickerC :: sc) w lg <> Blocked e.
Proof.
  intros Hd. simpl.
  destruct (h w) as [[status err] w']. simpl in *.
  destruct err as [err|].
  { destruct (errors.As_ResourceNotFoundException err); discriminate. }
  destruct status as [st|]; [|discriminate].
  rewrite Hd. discriminate.
Qed.

Lemma waitForDeleted_loop_blocked_inv sc : forall w lg e,
  waitForDeleted_loop name h sc w lg = Blocked e ->
  sc = repeat TickerC (length sc) /\
  (forall j, j < length sc -> reports_deleting (poll_at h j w) = true) /\
  e = mkEnv (remote_after h (length sc) w) []
        (lg ++ deleting_log name h w 0 (length sc)).
Proof.
  induction sc as [|c sc IH]; intros w lg e Hb.
  - simpl in Hb. injection Hb as <-. simpl.
    repeat split; [intros j Hj; lia|]. now rewrite app_nil_r.
  - destruct c; [|discriminate].
    destruct (reports_deleting (fst (h w))) eqn:Hd.
    2:{ now apply waitForDeleted_loop_not_deleting in Hb. }
    rewrite (waitForDeleted_loop_deleting name h sc w lg Hd) in Hb.
    apply IH in Hb as (Hsc & Hpre & ->).
    simpl length. repeat split.
    + simpl. now rewrite <- Hsc.
    + intros [|j] Hj; [exact Hd|]. apply Hpre. lia.
    + simpl remote_after. f_equal.
      rewrite <- app_assoc. f_equal.
      unfold deleting_log at 2. simpl seq. simpl map.
      fold (deleting_log name h w 1 (length sc)).
      now rewrite deleting_log_shift.
Qed.

Lemma waitForDeleted_loop_blocked_intro n : forall w lg,
  (forall j, j < n -> reports_deleting (poll_at h j w) = true) ->
  waitForDeleted_loop name h (repeat TickerC n) w lg
  = Blocked (mkEnv (remote_after h n w) [] (lg ++ deleting_log name h w 0 n)).
Proof.
  induction n as [|n IH]; intros w lg Hpre.
  - simpl. now rewrite app_nil_r.
  - assert (Hd : reports_deleting (fst (h w)) = true) by (apply (Hpre 0); lia).
    simpl repeat. rewrite (waitForDeleted_loop_deleting name h _ w lg Hd).
    rewrite IH by (intros j Hj; apply (Hpre (S j)); lia).
    simpl remote_after. f_equal. f_equal.
    rewrite <- app_assoc. f_equal.
    unfold deleting_log at 2. simpl seq. simpl map.
    fold (deleting_log name h w 1 n).
    now rewrite deleting_log_shift.
Qed.
End DeletedBlocked.

(** The deletion waiter is still waiting at the end of a schedule only if
    every select case taken was a tick and every poll reported a status
    starting with "DELETE"; it has then called the poll function once per
    tick and logged one line per poll, in order.  Conversely, [n] such ticks
    leave it waiting: a resource that stays in a "DELETE..." status is
    waited for without a bound. *)
Theorem waitForDeleted_waits_while_deleting {W : Type} (name : string)
    (h : W -> handle_result * W) (w : W) (lg : list string) :
  (forall sc e,
      waitForDeleted name h (mkEnv w sc lg) = Blocked e ->
      sc = repeat TickerC (length sc) /\
      (forall j, j < length sc -> reports_deleting (poll_at h j w) = true) /\
      e = mkEnv (remote_after h (length sc) w) []
            (lg ++ deleting_log name h w 0 (length sc))) /\
  (forall n,
      (forall j, j < n -> reports_deleting (poll_at h j w) = true) ->
      waitForDeleted name h (mkEnv w (repeat TickerC n) lg)
      = Blocked (mkEnv (remote_after h n w) [] (lg ++ deleting_log name h w 0 n))).
Proof.
  split.
  - intros sc e Hb. now apply (waitForDeleted_loop_blocked_inv name h sc w lg).
  - intros n Hpre. now apply waitForDeleted_loop_blocked_intro.
Qed.

Lemma waitForDeleted_waits_while_deleting_witness :
  (waitForDeleted "forecast" (scripted (None, None))
     (mkEnv [(Some "DELETE_PENDING", None); (Some "DELETE_IN_PROGRESS", None)]
        [TickerC; TickerC] [])
   = Blocked (mkEnv [] [] ["forecast's status is DELETE_PENDING";
                           "forecast's status is DELETE_IN_PROGRESS"]) /\
   [TickerC; TickerC] = repeat TickerC (length [TickerC; TickerC]))
  /\
  waitForDeleted "forecast" (@always handle_result (Some "DELETE_IN_PROGRESS", None))
    (mkEnv tt (repeat TickerC 3) [])
  = Blocked (mkEnv (remote_after (@always handle_result (Some "DELETE_IN_PROGRESS", None)) 3 tt) []
               ([] ++ deleting_log "forecast" (@always handle_result (Some "DELETE_IN_PROGRESS", None))
                        tt 0 3)).
Proof.
  split.
  - split; [reflexivity|].
    apply (proj1 (waitForDeleted_waits_while_deleting "forecast"
                    (scripted (None, None))
                    [(Some "DELETE_PENDING", None); (Some "DELETE_IN_PROGRESS", None)] [])
             [TickerC; TickerC]
             (mkEnv [] [] ["forecast's status is DELETE_PENDING";
                           "forecast's status is DELETE_IN_PROGRESS"])).
    reflexivity.
  - apply (proj2 (waitForDeleted_waits_while_deleting "forecast"
                    (@always handle_result (Some "DELETE_IN_PROGRESS", None)) tt []) 3).
    intros j Hj. rewrite poll_at_always. reflexivity.
Defined.

(** ** Where the errors of the waiters come from *)

Section ActiveErrors.
Context {W : Type}.
Variable name : string.
Variable h : W -> status_result * W.

Lemma waitForActive_loop_error_step sc w lg err e :
  reports_creating (fst (h w)) = false ->
  waitForActive_loop name h (TickerC :: sc) w lg = Done (Some err) e ->
  active_error_origin name (fst (h w)) err /\ remote e = snd (h w).
Proof.
  intros Hc. simpl.
  destruct (h w) as [[[status rem] err0] w']. simpl in *.
  destruct err0 as [err0|].
  { intros He. injection He as <- <-. destruct status; split; reflexivity. }
  destruct status as [st|]; [|discriminate].
  destruct (String.eqb_spec st "ACTIVE") as [Ha|Ha]; [discriminate|].
  destruct (strings.HasPrefix st "CREATE") eqn:Hp; simpl in *.
  - apply negb_false_iff in Hc. rewrite Hc.
    intros He. injection He as <- <-. apply String.eqb_eq in Hc.
    split; [right; split; [exact Hc|reflexivity] | reflexivity].
  - intros He. injection He as <- <-.
    split; [left; repeat split; assumption | reflexivity].
Qed.

Lemma waitForActive_loop_error_origin sc : forall w lg err e,
  waitForActive_loop name h sc w lg = Done (Some err) e ->
  exists k, k < length sc /\
    (forall j, j < k -> reports_creating (poll_at h j w) = true) /\
    active_error_origin name (poll_at h k w) err /\
    remote e = remote_after h (S k) w.
Proof.
  induction sc as [|c sc IH]; intros w lg err e He; [discriminate|].
  destruct c; [|discriminate].
  destruct (reports_creating (fst (h w))) eqn:Hc.
  - destruct (waitForActive_loop_creating name h sc w lg Hc) as [lg' Heq].
    rewrite Heq in He. apply IH in He as (k & Hk & Hpre & Ho & Hr).
    exists (S k). simpl length. repeat split; [lia| |exact Ho|exact Hr].
    intros [|j] Hj; [exact Hc|]. apply Hpre. lia.
  - apply (waitForActive_loop_error_step sc w lg err e Hc) in He as [Ho Hr].
    exists 0. simpl length. repeat split; [lia| |exact Ho|exact Hr].
    intros j Hj. lia.
Qed.
End ActiveErrors.

(** An error returned by the active-state waiter is the outcome of one poll,
    every earlier poll having reported an in-progress status: it is the
    error that poll returned, or "<name> is not creating but <status>" for a
    status that is not "ACTIVE" and lacks the "CREATE" prefix, or "creating
    is failed" for the status "CREATE_FAILED".  That poll is the last one
    made. *)
Theorem waitForActive_error_origin {W : Type} (name : string)
    (h : W -> status_result * W) w sc lg err e :
  waitForActive name h (mkEnv w sc lg) = Done (Some err) e ->
  exists k, k < length sc /\
    (forall j, j < k -> reports_creating (poll_at h j w) = true) /\
    active_error_origin name (poll_at h k w) err /\
    remote e = remote_after h (S k) w.
Proof. apply waitForActive_loop_error_origin. Qed.

Lemma waitForActive_error_origin_witness :
  exists k, k < length [TickerC; TickerC; TickerC] /\
    (forall j, j < k ->
       reports_creating
         (poll_at (scripted (None, None, None)) j
            [(Some "CREATE_PENDING", None, None); (Some "CREATE_FAILED", None, None)])
       = true) /\
    active_error_origin "predictor"
      (poll_at (scripted (None, None, None)) k
         [(Some "CREATE_PENDING", None, None); (Some "CREATE_FAILED", None, None)])
      (errorString "creating is failed") /\
    remote (mkEnv ([] : list status_result) [TickerC] [])
    = remote_after (scripted (None, None, None)) (S k)
        [(Some "CREATE_PENDING", None, None); (Some "CREATE_FAILED", None, None)].
Proof.
  apply (waitForActive_error_origin "predictor" (scripted (None, None, None))
           [(Some "CREATE_PENDING", None, None); (Some "CREATE_FAILED", None, None)]
           [TickerC; TickerC; TickerC] []).
  reflexivity.
Defined.

Section DeletedErrors.
Context {W : Type}.
Variable name : string.
Variable h : W -> handle_result * W.

Lemma waitForDeleted_loop_error_step sc w lg err e :
  reports_deleting (fst (h w)) = false ->
  waitForDeleted_loop name h (TickerC :: sc) w lg = Done (Some err) e ->
  deleted_error_origin name (fst (h w)) err /\ remote e = snd (h w).
Proof.
  intros Hd. simpl.
  destruct (h w) as [[status err0] w']. simpl in *.
  destruct err0 as [err0|].
  { destruct (errors.As_ResourceNotFoundException err0) eqn:Hnf; [discriminate|].
    intros He. injection He as <- <-. destruct status; repeat split; assumption. }
  destruct status as [st|]; [|discriminate].
  rewrite Hd. simpl. intros He. injection He as <- <-. repeat split.
Qed.

Lemma waitForDeleted_loop_error_origin sc : forall w lg err e,
  waitForDeleted_loop name h sc w lg = Done (Some err) e ->
  exists k, k < length sc /\
    (forall j, j < k -> reports_deleting (poll_at h j w) = true) /\
    deleted_error_origin name (poll_at h k w) err /\
    remote e = remote_after h (S k) w.
Proof.
  induction sc as [|c sc IH]; intros w lg err e He; [discriminate|].
  destruct c; [|discriminate].
  destruct (reports_deleting (fst (h w))) eqn:Hd.
  - rewrite (waitForDeleted_loop_deleting name h sc w lg Hd) in He.
    apply IH in He as (k & Hk & Hpre & Ho & Hr).
    exists (S k). simpl length. repeat split; [lia| |exact Ho|exact Hr].
    intros [|j] Hj; [exact Hd|]. apply Hpre. lia.
  - apply (waitForDeleted_loop_error_step sc w lg err e Hd) in He as [Ho Hr].
    exists 0. simpl length. repeat split; [lia| |exact Ho|exact Hr].
    intros j Hj. lia.
Qed.
End DeletedErrors.

(** An error returned by the deletion waiter is the outcome of one poll,
    every earlier poll having reported a "DELETE..." status: it is the error
    that poll returned, which is then no ResourceNotFoundException, or
    "<name> is not deleting but <status>" for a status without the "DELETE"
    prefix.  The waiter builds no other error: in particular it does not
    answer a status with "deleting is failed". *)
Theorem waitForDeleted_error_origin {W : Type} (name : string)
    (h : W -> handle_result * W) w sc lg err e :
  waitForDeleted name h (mkEnv w sc lg) = Done (Some err) e ->
  exists k, k < length sc /\
    (forall j, j < k -> reports_deleting (poll_at h j w) = true) /\
    deleted_error_origin name (poll_at h k w) err /\
    remote e = remote_after h (S k) w.
Proof. apply waitForDeleted_loop_error_origin. Qed.

Lemma waitForDeleted_error_origin_witness :
  exists k, k < length [TickerC; TickerC] /\
    (forall j, j < k ->
       reports_deleting
         (poll_at (scripted (None, None)) j
            [(Some "DELETE_PENDING", None); (Some "DELTE_FAILED", None)])
       = true) /\
    deleted_error_origin "forecast"
      (poll_at (scripted (None, None)) k
         [(Some "DELETE_PENDING", None); (Some "DELTE_FAILED", None)])
      (errorString "forecast is not deleting but DELTE_FAILED") /\
    remote (mkEnv ([] : list handle_result) [] ["forecast's status is DELETE_PENDING"])
    = remote_after (scripted (None, None)) (S k)
        [(Some "DELETE_PENDING", None); (Some "DELTE_FAILED", None)].
Proof.
  apply (waitForDeleted_error_origin "forecast" (scripted (None, None))
           [(Some "DELETE_PENDING", None); (Some "DELTE_FAILED", None)]
           [TickerC; TickerC] []).
  reflexivity.
Defined.

(** ** A result does not depend on what is scheduled after it *)

Section Stability.
Context {W : Type}.
Variable name : string.

Lemma waitForActive_loop_done_app (h : W -> status_result * W) sc more :
  forall w lg r e,
    waitForActive_loop name h sc w lg = Done r e ->
    waitForActive_loop name h (sc ++ more) w lg
    = Done r (mkEnv (remote e) (pending e ++ more) (logged e)).
Proof.
  induction sc as [|c sc IH]; intros w lg r e Hd; [discriminate|].
  destruct c; simpl in *.
  - destruct (h w) as [[[status rem] err] w'].
    destruct err; [injection Hd as <- <-; reflexivity|].
    destruct status as [st|]; [|discriminate].
    destruct (st =? "ACTIVE"); [injection Hd as <- <-; reflexivity|].
    destruct (negb (strings.HasPrefix st "CREATE"));
      [injection Hd as <- <-; reflexivity|].
    destruct (st =? "CREATE_FAILED"); [injection Hd as <- <-; reflexivity|].
    now apply IH.
  - injection Hd as <- <-. reflexivity.
Qed.

Lemma waitForDeleted_loop_done_app (h : W -> handle_result * W) sc more :
  forall w lg r e,
    waitForDeleted_loop name h sc w lg = Done r e ->
    waitForDeleted_loop name h (sc ++ more) w lg
    = Done r (mkEnv (remote e) (pending e ++ more) (logged e)).
Proof.
  induction sc as [|c sc IH]; intros w lg r e Hd; [discriminate|].
  destruct c; simpl in *.
  - destruct (h w) as [[status err] w'].
    destruct err as [err|].
    { destruct (errors.As_ResourceNotFoundException err);
        injection Hd as <- <-; reflexivity. }
    destruct status as [st|]; [|discriminate].
    destruct (negb (strings.HasPrefix st "DELETE"));
      [injection Hd as <- <-; reflexivity|].
    destruct (st =? "DELTE_FAILED"); [injection Hd as <- <-; reflexivity|].
    now apply IH.
  - injection Hd as <- <-. reflexivity.
Qed.
End Stability.

(** Once a waiter has returned on a schedule, it returns the same value,
    with the same remote state and log, on any longer schedule; the select
    cases added are left to whoever waits next. *)
Theorem waiters_ignore_later_events {W : Type} (name : string) :
  (forall (h : W -> status_result * W) w sc more lg r e,
      waitForActive name h (mkEnv w sc lg) = Done r e ->
      waitForActive name h (mkEnv w (sc ++ more) lg)
      = Done r (mkEnv (remote e) (pending e ++ more) (logged e))) /\
  (forall (h : W -> handle_result * W) w sc more lg r e,
      waitForDeleted name h (mkEnv w sc lg) = Done r e ->
      waitForDeleted name h (mkEnv w (sc ++ more) lg)
      = Done r (mkEnv (remote e) (pending e ++ more) (logged e))).
Proof.
  split; intros h w sc more lg r e Hd.
  - now apply waitForActive_loop_done_app.
  - now apply waitForDeleted_loop_done_app.
Qed.

Lemma waiters_ignore_later_events_witness :
  waitForActive "forecast" (scripted (None, None, None))
    (mkEnv pending_progress_active ([TickerC; TickerC; TickerC; TickerC] ++ [CtxDone]) [])
  = Done None (mkEnv [] ([TickerC] ++ [CtxDone]) [])
  /\
  waitForDeleted "forecast" (scripted (Some "DELETE_PENDING", None))
    (mkEnv gone_then_deleting ([TickerC; TickerC] ++ [TickerC]) [])
  = Done None (mkEnv [(Some "DELETE_IN_PROGRESS", None)] ([TickerC] ++ [TickerC]) []).
Proof.
  split.
  - apply (proj1 (waiters_ignore_later_events "forecast")
             (scripted (None, None, None)) pending_progress_active
             [TickerC; TickerC; TickerC; TickerC] [CtxDone] [] None
             (mkEnv [] [TickerC] [])).
    reflexivity.
  - apply (proj2 (waiters_ignore_later_events "forecast")
             (scripted (Some "DELETE_PENDING", None)) gone_then_deleting
             [TickerC; TickerC] [TickerC] [] None
             (mkEnv [(Some "DELETE_IN_PROGRESS", None)] [TickerC] [])).
    reflexivity.
Defined.

(** * Properties of the methods of [Forecast] *)

Section CreateFacts.
Context {W : Type}.
Variable f : Forecast W.



Lemma skipIfAlreadyExists_ends_without_select resource name
    (h : W -> handle_result * W) e :
  ends_without_select e (skipIfAlreadyExists f resource name h e).
Proof.
  unfold skipIfAlreadyExists, bind, call.
  destruct (h (remote e)) as [[arn [err|]] w1]; simpl; [|reflexivity].
  destruct (errors.As_ResourceAlreadyExistsException err); simpl; [|reflexivity].
  unfold deref. destruct (caller f) as [c|]; simpl; [|reflexivity].
  destruct (sts.Account c); reflexivity.
Qed.

Lemma skipIfAlreadyExists_no_panic resource name
    (h : W -> handle_result * W) e c account :
  caller f = Some c ->
  sts.Account c = Some account ->
  no_panic (skipIfAlreadyExists f resource name h e).
Proof.
  intros Hc Ha. unfold skipIfAlreadyExists, bind, call.
  destruct (h (remote e)) as [[arn [err|]] w1]; simpl; [|exact I].
  destruct (errors.As_ResourceAlreadyExistsException err); simpl; [|exact I].
  unfold deref. rewrite Hc. simpl. rewrite Ha. exact I.
Qed.
End CreateFacts.

(** ** The already-exists path when the identity has no account *)

(** When the create closure fails with an error that is a
    ResourceAlreadyExistsException and the caller identity is nil or has a
    nil Account, [skipIfAlreadyExists] panics on the dereference, after it
    has logged the skip. *)
Theorem skipIfAlreadyExists_nil_account_panics {W : Type} (f : Forecast W)
    (resource name : string) (h : W -> handle_result * W) e arn err w' :
  h (remote e) = ((arn, Some err), w') ->
  errors.As_ResourceAlreadyExistsException err = true ->
  caller f = None \/ (exists c, caller f = Some c /\ sts.Account c = None) ->
  skipIfAlreadyExists f resource name h e
  = Panic (mkEnv w' (pending e)
             (logged e ++ ["skip to create " ++ resource ++ " already exists"])).
Proof.
  intros Hh Hex Hnil. unfold skipIfAlreadyExists, bind, call.
  rewrite Hh. simpl. rewrite Hex. unfold log_Print, deref. simpl.
  destruct Hnil as [Hc|(c & Hc & Ha)]; rewrite Hc; [reflexivity|].
  simpl. rewrite Ha. reflexivity.
Qed.

Lemma skipIfAlreadyExists_nil_account_panics_witness :
  skipIfAlreadyExists
    {| region := "us-east-1"; svc := Tracing.client Tracing.active;
       query := forecastquery.NewFromConfig;
       caller := Some {| sts.Account := None; sts.Arn := None; sts.UserId := None |} |}
    "dataset" "d1"
    (always_on (None, Some (ResourceAlreadyExistsException "exists")))
    (mkEnv [] [] [])
  = Panic (mkEnv [] [] ["skip to create dataset already exists"]).
Proof.
  apply (skipIfAlreadyExists_nil_account_panics _ "dataset" "d1" _ (mkEnv [] [] [])
           None (ResourceAlreadyExistsException "exists") []);
    [reflexivity | reflexivity |].
  right. eexists. split; reflexivity.
Defined.

(** ** A refused create is not waited for *)



(** ** A resource that exists already is waited for under its synthesized ARN *)



(** ** A refused delete is not waited for *)

Section DeleteFacts.
Context {W : Type}.

Lemma delete_then_wait_refused (del : W -> (unit + error) * W) name describe
    (e : env W) err w1 :
  del (remote e) = (inr err, w1) ->
  delete_then_wait del name describe e
  = Done (Some err) (mkEnv w1 (pending e) (logged e)).
Proof.
  intros Hd. unfold delete_then_wait, bind, call. rewrite Hd. reflexivity.
Qed.

Lemma delete_only_ends_without_select (del : W -> (unit + error) * W) (e : env W) :
  ends_without_select e (delete_only del e).
Proof.
  unfold delete_only, bind, call.
  destruct (del (remote e)) as [[[]|err] w1]; reflexivity.
Qed.
End DeleteFacts.

(** When the delete operation of a delete-then-wait method fails, the method
    returns that error: the describe operation is not called and no select
    case is taken.  This holds for a ResourceNotFoundException too: the
    absence of the resource is taken for a success only when a poll reports
    it, not when the delete itself does. *)
Theorem refused_delete_is_not_polled {W : Type} (f : Forecast W)
    (arn : string) (err : error) (e : env W) (w1 : W) :
  (forecast.DeleteForecastExportJob (svc f) (Some arn) (remote e) = (inr err, w1) ->
   DeleteForecastExportJob f arn e
   = Done (Some err) (mkEnv w1 (pending e) (logged e))) /\
  (forecast.DeleteForecast (svc f) (Some arn) (remote e) = (inr err, w1) ->
   DeleteForecast f arn e
   = Done (Some err) (mkEnv w1 (pending e) (logged e))) /\
  (forecast.DeletePredictor (svc f) (Some arn) (remote e) = (inr err, w1) ->
   DeletePredictor f arn e
   = Done (Some err) (mkEnv w1 (pending e) (logged e))) /\
  (forecast.DeleteDatasetImportJob (svc f) (Some arn) (remote e) = (inr err, w1) ->
   DeleteDatasetImportJob f arn e
   = Done (Some err) (mkEnv w1 (pending e) (logged e))).
Proof.
  split; [|split; [|split]]; intros Hd; now apply delete_then_wait_refused.
Qed.

Lemma refused_delete_is_not_polled_witness :
  DeleteForecastExportJob (Refusing.f Refusing.not_found (Refusing.active_at "x"))
    "arn:export" (mkEnv [] [TickerC] [])
  = Done (Some Refusing.not_found) (mkEnv ["DeleteForecastExportJob"] [TickerC] [])
  /\
  DeleteForecast (Refusing.f Refusing.not_found (Refusing.active_at "x"))
    "arn:forecast" (mkEnv [] [TickerC] [])
  = Done (Some Refusing.not_found) (mkEnv ["DeleteForecast"] [TickerC] [])
  /\
  DeletePredictor (Refusing.f Refusing.not_found (Refusing.active_at "x"))
    "arn:predictor" (mkEnv [] [TickerC] [])
  = Done (Some Refusing.not_found) (mkEnv ["DeletePredictor"] [TickerC] [])
  /\
  DeleteDatasetImportJob (Refusing.f Refusing.not_found (Refusing.active_at "x"))
    "arn:import" (mkEnv [] [TickerC] [])
  = Done (Some Refusing.not_found) (mkEnv ["DeleteDatasetImportJob"] [TickerC] []).
Proof.
  split; [|split; [|split]].
  - apply (proj1 (refused_delete_is_not_polled
                    (Refusing.f Refusing.not_found (Refusing.active_at "x"))
                    "arn:export" Refusing.not_found (mkEnv [] [TickerC] [])
                    ["DeleteForecastExportJob"])).
    reflexivity.
  - apply (proj1 (proj2 (refused_delete_is_not_polled
                    (Refusing.f Refusing.not_found (Refusing.active_at "x"))
                    "arn:forecast" Refusing.not_found (mkEnv [] [TickerC] [])
                    ["DeleteForecast"]))).
    reflexivity.
  - apply (proj1 (proj2 (proj2 (refused_delete_is_not_polled
                    (Refusing.f Refusing.not_found (Refusing.active_at "x"))
                    "arn:predictor" Refusing.not_found (mkEnv [] [TickerC] [])
                    ["DeletePredictor"])))).
    reflexivity.
  - apply (proj2 (proj2 (proj2 (refused_delete_is_not_polled
                    (Refusing.f Refusing.not_found (Refusing.active_at "x"))
                    "arn:import" Refusing.not_found (mkEnv [] [TickerC] [])
                    ["DeleteDatasetImportJob"])))).
    reflexivity.
Defined.

(** ** The methods that do not wait *)

(** [CreateDataset], [CreateDatasetGroup], [DeleteDatasetGroup] and
    [DeleteDataset] take no select case: they return (or panic on a nil
    account) with the schedule as they found it, and are never left
    waiting.  In particular a deleted dataset group or dataset is not
    waited for. *)
Theorem methods_without_wait {W : Type} (f : Forecast W) (e : env W) :
  (forall name, ends_without_select e (CreateDataset f name e)) /\
  (forall name datasetArns,
      ends_without_select e (CreateDatasetGroup f name datasetArns e)) /\
  (forall datasetGroupArn,
      ends_without_select e (DeleteDatasetGroup f datasetGroupArn e)) /\
  (forall datasetArn, ends_without_select e (DeleteDataset f datasetArn e)).
Proof.
  split; [|split; [|split]]; intros.
  - apply skipIfAlreadyExists_ends_without_select.
  - apply skipIfAlreadyExists_ends_without_select.
  - apply delete_only_ends_without_select.
  - apply delete_only_ends_without_select.
Qed.

(** ** No nil dereference in the methods *)

Section NoPanicMethods.
Context {W : Type}.

Lemma no_panic_bind {A B} (c : M W A) (k : A -> M W B) (e : env W) :
  no_panic (c e) ->
  (forall a e1, c e = Done a e1 -> no_panic (k a e1)) ->
  no_panic (bind c k e).
Proof.
  intros Hc Hk. unfold bind. destruct (c e) as [a e1|e1|e1|e1]; simpl in *;
    try exact I; [now apply Hk | exact Hc].
Qed.

Lemma waitForActive_no_panic name (h : W -> status_result * W) (e : env W) :
  status_or_error3 h -> no_panic (waitForActive name h e).
Proof.
  intros Hc. pose proof (waitForActive_loop_no_panic name h Hc
                           (pending e) (remote e) (logged e)) as Hn.
  unfold waitForActive. destruct (waitForActive_loop _ _ _ _ _); simpl; try exact I.
  now apply (Hn e0).
Qed.

Lemma waitForDeleted_no_panic name (h : W -> handle_result * W) (e : env W) :
  status_or_error2 h -> no_panic (waitForDeleted name h e).
Proof.
  intros Hc. pose proof (waitForDeleted_loop_no_panic name h Hc
                           (pending e) (remote e) (logged e)) as Hn.
  unfold waitForDeleted. destruct (waitForDeleted_loop _ _ _ _ _); simpl; try exact I.
  now apply (Hn e0).
Qed.

Lemma describe_closure_contract (op : W -> (forecast.DescribeOutput + error) * W)
    remaining :
  (forall w desc w', op w = (inl desc, w') -> forecast.Status desc <> None) ->
  status_or_error3 (describe_closure op remaining).
Proof.
  intros Hop w rem w' Hh. unfold describe_closure in Hh.
  destruct (op w) as [[desc|err] w1] eqn:Ho; [|discriminate].
  injection Hh as Hs _ _. now apply (Hop w desc w1).
Qed.

Lemma describe_status_closure_contract
    (op : W -> (forecast.DescribeOutput + error) * W) :
  (forall w desc w', op w = (inl desc, w') -> forecast.Status desc <> None) ->
  status_or_error2 (describe_status_closure op).
Proof.
  intros Hop w w' Hh. unfold describe_status_closure in Hh.
  destruct (op w) as [[desc|err] w1] eqn:Ho; [|discriminate].
  injection Hh as Hs _. now apply (Hop w desc w1).
Qed.

Lemma delete_then_wait_no_panic (del : W -> (unit + error) * W) name
    (describe : W -> (forecast.DescribeOutput + error) * W) (e : env W) :
  (forall w desc w', describe w = (inl desc, w') -> forecast.Status desc <> None) ->
  no_panic (delete_then_wait del name describe e).
Proof.
  intros Hd. unfold delete_then_wait. apply no_panic_bind.
  - unfold call. destruct (del (remote e)). exact I.
  - intros [[]|err] e1 _; [|exact I].
    apply waitForDeleted_no_panic. now apply describe_status_closure_contract.
Qed.

Lemma delete_only_no_panic (del : W -> (unit + error) * W) (e : env W) :
  no_panic (delete_only del e).
Proof.
  unfold delete_only, bind, call.
  destruct (del (remote e)) as [[[]|err] w1]; exact I.
Qed.
End NoPanicMethods.

(** When the caller identity has an account and every describe output
    carries a status, no method of [Forecast] dereferences a nil pointer,
    whatever the remote answers and whatever the schedule. *)
Theorem methods_do_not_panic {W : Type} (f : Forecast W) c account :
  caller f = Some c ->
  sts.Account c = Some account ->
  describes_carry_status (svc f) ->
  forall e : env W,
    (forall name, no_panic (CreateDataset f name e)) /\
    (forall name datasetName datasetArn src,
        no_panic (CreateDatasetImportJob f name datasetName datasetArn src e)) /\
    (forall name datasetArns, no_panic (CreateDatasetGroup f name datasetArns e)) /\
    (forall name datasetGroupArn, no_panic (CreatePredictor f name datasetGroupArn e)) /\
    (forall name predictorArn, no_panic (CreateForecast f name predictorArn e)) /\
    (forall name forecastName forecastArn dest,
        no_panic (CreateForecastExportJob f name forecastName forecastArn dest e)) /\
    (forall arn, no_panic (DeleteForecastExportJob f arn e)) /\
    (forall arn, no_panic (DeleteForecast f arn e)) /\
    (forall arn, no_panic (DeletePredictor f arn e)) /\
    (forall arn, no_panic (DeleteDatasetGroup f arn e)) /\
    (forall arn, no_panic (DeleteDatasetImportJob f arn e)) /\
    (forall arn, no_panic (DeleteDataset f arn e)).
Proof.
  intros Hc Ha Hd e.
  assert (Hskip : forall resource name h e0,
             no_panic (skipIfAlreadyExists f resource name h e0)).
  { intros. now apply (skipIfAlreadyExists_no_panic f _ _ _ _ c account). }
  repeat match goal with |- _ /\ _ => split end; intros.
  - apply Hskip.
  - unfold CreateDatasetImportJob. apply no_panic_bind; [apply Hskip|].
    intros [arn [err|]] e1 _; [exact I|].
    apply no_panic_bind; [|intros [err1|] e2 _; exact I].
    apply waitForActive_no_panic, describe_closure_contract.
    intros w desc w' Ho. apply (Hd arn w desc w'). now left.
  - apply Hskip.
  - unfold CreatePredictor. apply no_panic_bind; [apply Hskip|].
    intros [arn [err|]] e1 _; [exact I|].
    apply no_panic_bind; [|intros [err1|] e2 _; exact I].
    apply waitForActive_no_panic, describe_closure_contract.
    intros w desc w' Ho. apply (Hd arn w desc w'). right. now left.
  - unfold CreateForecast. apply no_panic_bind; [apply Hskip|].
    intros [arn [err|]] e1 _; [exact I|].
    apply no_panic_bind; [|intros [err1|] e2 _; exact I].
    apply waitForActive_no_panic, describe_closure_contract.
    intros w desc w' Ho. apply (Hd arn w desc w'). right. right. now left.
  - unfold CreateForecastExportJob. apply no_panic_bind; [apply Hskip|].
    intros [arn [err|]] e1 _; [exact I|].
    apply no_panic_bind; [|intros err1 e2 _; exact I].
    apply waitForActive_no_panic, describe_closure_contract.
    intros w desc w' Ho. apply (Hd arn w desc w'). right. right. now right.
  - apply delete_then_wait_no_panic.
    intros w desc w' Ho. apply (Hd (Some arn) w desc w'). right. right. now right.
  - apply delete_then_wait_no_panic.
    intros w desc w' Ho. apply (Hd (Some arn) w desc w'). right. right. now left.
  - apply delete_then_wait_no_panic.
    intros w desc w' Ho. apply (Hd (Some arn) w desc w'). right. now left.
  - apply delete_only_no_panic.
  - apply delete_then_wait_no_panic.
    intros w desc w' Ho. apply (Hd (Some arn) w desc w'). now left.
  - apply delete_only_no_panic.
Qed.

Lemma tracing_describes_carry_status :
  describes_carry_status (svc (Tracing.f Tracing.active)).
Proof.
  intros arn w desc w' H. simpl in H. unfold Tracing.described in H.
  destruct H as [H|[H|[H|H]]];
    match type of H with
    | context [existsb ?p ?l] => destruct (existsb p l)
    end; try discriminate; injection H as <- _; discriminate.
Defined.

Lemma methods_do_not_panic_witness :
  caller (Tracing.f Tracing.active) = Some Tracing.identity /\
  sts.Account Tracing.identity = Some "111122223333" /\
  no_panic (CreateForecast (Tracing.f Tracing.active) "fc" "arn:predictor"
              (mkEnv [] [TickerC] [])) /\
  no_panic (DeleteForecast (Tracing.f Tracing.active) "arn:fc"
              (mkEnv [] [TickerC] [])).
Proof.
  split; [reflexivity|]. split; [reflexivity|].
  pose proof (methods_do_not_panic (Tracing.f Tracing.active) Tracing.identity
                "111122223333" eq_refl eq_refl tracing_describes_carry_status
                (mkEnv [] [TickerC] []))
    as (_ & _ & _ & _ & Hcf & _ & _ & Hdf & _).
  split; [apply Hcf | apply Hdf].
Defined.

(** * Properties of [main] *)




